(** * Course catalog application (app.py): store, routes and request hooks

    A shallow embedding of [app.py].  The Python functions become functions
    of the same name over an explicit [world] (the course file on disk, the
    tracer's spans, the three metric instruments, the logger's output and
    the flashed messages), threaded by a small state-and-exception monad.
    Library calls (json, Flask, the OpenTelemetry SDK, logging) are modelled
    by what the program observes of them; each such place says so. *)

From Stdlib Require Import QArith.
From stdpp Require Import gmap strings list.

Set Warnings "-register-all,-clear-no-such-hyp".
Local Open Scope string_scope.
Local Open Scope list_scope.

(** ** Python values *)

(** What [json.load] can return, and what the program passes to span
    attributes, metric attributes and log records.  A [dict] keeps its items
    in insertion order; JSON object keys are strings. *)
Inductive pyval : Type :=
| PNone
| PBool (b : bool)
| PInt (n : Z)
| PFloat (q : Q)
| PStr (s : string)
| PList (l : list pyval)
| PDict (items : list (string * pyval)).

(** The exceptions the modelled code can raise.  [HTTPException] is
    werkzeug's (404, 405); the others are Python's own. *)
Inductive exn : Type :=
| JSONDecodeError
| AttributeError (name : string)
| TypeError (what : string)
| KeyError (key : string)
| FileNotFoundError
| HTTPException (code : Z).

Inductive result (A : Type) : Type :=
| Ok (a : A)
| Raise (e : exn).
Arguments Ok {A} a.
Arguments Raise {A} e.

(** [bool(v)]: Python truthiness, as [not v] and [if v] use it. *)
Definition truthy (v : pyval) : bool :=
  match v with
  | PNone => false
  | PBool b => b
  | PInt n => negb (n =? 0)%Z
  | PFloat q => negb (Qeq_bool q 0)
  | PStr s => negb (String.eqb s "")
  | PList l => negb (Nat.eqb (length l) 0)
  | PDict items => negb (Nat.eqb (length items) 0)
  end.

(** [d[key]] on the items of a dict. *)
Fixpoint dict_get (items : list (string * pyval)) (key : string) : option pyval :=
  match items with
  | [] => None
  | (k, v) :: rest => if String.eqb k key then Some v else dict_get rest key
  end.

(** [v[key]] with a string key: only a dict accepts it. *)
Definition getitem (v : pyval) (key : string) : result pyval :=
  match v with
  | PDict items =>
      match dict_get items key with
      | Some x => Ok x
      | None => Raise (KeyError key)
      end
  | PStr _ => Raise (TypeError "string indices must be integers")
  | PList _ => Raise (TypeError "list indices must be integers or slices")
  | _ => Raise (TypeError "object is not subscriptable")
  end.

(** One-character strings of a string, as iterating a [str] yields them. *)
Fixpoint chars (s : string) : list pyval :=
  match s with
  | EmptyString => []
  | String c rest => PStr (String c EmptyString) :: chars rest
  end.

(** [iter(v)]: what a [for] loop or a comprehension walks over. *)
Definition py_iter (v : pyval) : result (list pyval) :=
  match v with
  | PList l => Ok l
  | PDict items => Ok (map (fun kv => PStr (fst kv)) items)
  | PStr s => Ok (chars s)
  | _ => Raise (TypeError "object is not iterable")
  end.

(** [len(v)]. *)
Definition py_len (v : pyval) : result pyval :=
  match v with
  | PList l => Ok (PInt (Z.of_nat (length l)))
  | PDict items => Ok (PInt (Z.of_nat (length items)))
  | PStr s => Ok (PInt (Z.of_nat (String.length s)))
  | _ => Raise (TypeError "object has no len()")
  end.

(** [a == b] where [b] is a [str]. *)
Definition eq_str (a : pyval) (b : string) : bool :=
  match a with
  | PStr s => String.eqb s b
  | _ => false
  end.

(** [sep.join(parts)]. *)
Fixpoint join (sep : string) (parts : list string) : string :=
  match parts with
  | [] => ""
  | [p] => p
  | p :: rest => p +:+ sep +:+ join sep rest
  end.

(** ** The world the program runs in *)

(** The text of [COURSE_FILE], kept up to what [json.load] makes of it:
    text the decoder rejects, or text that decodes to a value (the text
    [json.dump] writes for [v] decodes to [v]). *)
Inductive file_text : Type :=
| Undecodable
| Encodes (v : pyval).

(** A span of the SDK: name, attributes, and whether [end()] was called. *)
Record span : Type := mkSpan {
  span_name : string;
  span_attributes : gmap string pyval;
  span_ended : bool
}.

(** A reference to a span object: its position among the spans started so
    far, or the SDK's non-recording [INVALID_SPAN]. *)
Inductive span_ref : Type :=
| SpanRef (i : nat)
| INVALID_SPAN.

Inductive level : Type := INFO | ERROR.

(** A record handed to the JSON log handler: level, message and the
    [extra] fields. *)
Record log_record : Type := mkLog {
  log_level : level;
  log_message : string;
  log_extra : gmap string pyval
}.

Record world : Type := mkWorld {
  course_file : option file_text;   (* None: the file does not exist *)
  file_writes : nat;                (* times COURSE_FILE was opened with 'w' *)
  spans : list span;                (* every span started, oldest first *)
  context : list nat;               (* stack of current spans, top first *)
  route_request_counter : list (Z * gmap string pyval);
  route_processing_time : list (Q * gmap string pyval);
  error_counter : list (Z * gmap string pyval);
  log : list log_record;
  flashes : list (string * string); (* (category, message) *)
  request_start_time : option Q;    (* request.start_time, once set *)
  request_span : option span_ref    (* request.span, once set *)
}.

(** Opening the file with ['w'] and writing [f]'s text to it. *)
Definition write_course_file (f : option file_text) (w : world) : world :=
  mkWorld f (S (file_writes w)) (spans w) (context w) (route_request_counter w)
    (route_processing_time w) (error_counter w) (log w) (flashes w)
    (request_start_time w) (request_span w).

Definition set_spans (l : list span) (w : world) : world :=
  mkWorld (course_file w) (file_writes w) l (context w) (route_request_counter w)
    (route_processing_time w) (error_counter w) (log w) (flashes w)
    (request_start_time w) (request_span w).

Definition set_context (c : list nat) (w : world) : world :=
  mkWorld (course_file w) (file_writes w) (spans w) c (route_request_counter w)
    (route_processing_time w) (error_counter w) (log w) (flashes w)
    (request_start_time w) (request_span w).

Definition set_route_request_counter (c : list (Z * gmap string pyval)) (w : world) : world :=
  mkWorld (course_file w) (file_writes w) (spans w) (context w) c
    (route_processing_time w) (error_counter w) (log w) (flashes w)
    (request_start_time w) (request_span w).

Definition set_route_processing_time (h : list (Q * gmap string pyval)) (w : world) : world :=
  mkWorld (course_file w) (file_writes w) (spans w) (context w)
    (route_request_counter w) h (error_counter w) (log w) (flashes w)
    (request_start_time w) (request_span w).

Definition set_error_counter (c : list (Z * gmap string pyval)) (w : world) : world :=
  mkWorld (course_file w) (file_writes w) (spans w) (context w)
    (route_request_counter w) (route_processing_time w) c (log w) (flashes w)
    (request_start_time w) (request_span w).

Definition set_log (l : list log_record) (w : world) : world :=
  mkWorld (course_file w) (file_writes w) (spans w) (context w)
    (route_request_counter w) (route_processing_time w) (error_counter w) l (flashes w)
    (request_start_time w) (request_span w).

Definition set_flashes (f : list (string * string)) (w : world) : world :=
  mkWorld (course_file w) (file_writes w) (spans w) (context w)
    (route_request_counter w) (route_processing_time w) (error_counter w) (log w) f
    (request_start_time w) (request_span w).

Definition set_request_start_time (t : option Q) (w : world) : world :=
  mkWorld (course_file w) (file_writes w) (spans w) (context w)
    (route_request_counter w) (route_processing_time w) (error_counter w) (log w)
    (flashes w) t (request_span w).

Definition set_request_span (s : option span_ref) (w : world) : world :=
  mkWorld (course_file w) (file_writes w) (spans w) (context w)
    (route_request_counter w) (route_processing_time w) (error_counter w) (log w)
    (flashes w) (request_start_time w) s.

(** ** The monad: state, and exceptions that keep the state reached *)

Definition M (A : Type) : Type := world -> result A * world.

Definition ret {A : Type} (a : A) : M A := fun w => (Ok a, w).

Definition raise {A : Type} (e : exn) : M A := fun w => (Raise e, w).

Definition bind {A B : Type} (m : M A) (k : A -> M B) : M B :=
  fun w =>
    match m w with
    | (Ok a, w') => k a w'
    | (Raise e, w') => (Raise e, w')
    end.

Definition lift {A : Type} (r : result A) : M A := fun w => (r, w).

Notation "x <- m ;; k" := (bind m (fun x => k))
  (at level 100, m at next level, right associativity).
Notation "m ;; k" := (bind m (fun _ => k))
  (at level 100, right associativity).

(** ** Library calls, as the program observes them *)

(** [os.path.exists(COURSE_FILE)]. *)
Definition os_path_exists : M bool :=
  fun w => (Ok (match course_file w with Some _ => true | None => false end), w).

(** [with open(COURSE_FILE, 'r') as file: json.load(file)]. *)
Definition json_load : M pyval :=
  fun w =>
    match course_file w with
    | Some (Encodes v) => (Ok v, w)
    | Some Undecodable => (Raise JSONDecodeError, w)
    | None => (Raise FileNotFoundError, w)
    end.

(** [with open(COURSE_FILE, 'w') as file: json.dump(v, file, indent=4)]:
    the file is overwritten with the text of [v]. *)
Definition json_dump (v : pyval) : M unit :=
  fun w => (Ok tt, write_course_file (Some (Encodes v)) w).

(** [l.append(x)]: only a list has the method. *)
Definition append (l x : pyval) : result pyval :=
  match l with
  | PList xs => Ok (PList (xs ++ [x]))
  | _ => Raise (AttributeError "append")
  end.

(** [tracer.start_span(name, attributes=...)]: a new span, not made current. *)
Definition start_span (name : string) (attributes : gmap string pyval) : M span_ref :=
  fun w => (Ok (SpanRef (length (spans w))),
            set_spans (spans w ++ [mkSpan name attributes false]) w).

(** [span.set_attribute(key, value)]: the SDK ignores it (with a warning)
    once the span has ended, and on the invalid span. *)
Definition set_attribute (s : span_ref) (key : string) (value : pyval) : M unit :=
  fun w =>
    match s with
    | SpanRef i =>
        match spans w !! i with
        | Some sp =>
            if span_ended sp then (Ok tt, w)
            else (Ok tt, set_spans
                   (<[i := mkSpan (span_name sp) (<[key := value]> (span_attributes sp)) false]>
                      (spans w)) w)
        | None => (Ok tt, w)
        end
    | INVALID_SPAN => (Ok tt, w)
    end.

(** [span.end()]. *)
Definition span_end (s : span_ref) : M unit :=
  fun w =>
    match s with
    | SpanRef i =>
        match spans w !! i with
        | Some sp =>
            (Ok tt, set_spans
               (<[i := mkSpan (span_name sp) (span_attributes sp) true]> (spans w)) w)
        | None => (Ok tt, w)
        end
    | INVALID_SPAN => (Ok tt, w)
    end.

(** [trace.get_current_span()]. *)
Definition get_current_span : M span_ref :=
  fun w =>
    match context w with
    | i :: _ => (Ok (SpanRef i), w)
    | [] => (Ok INVALID_SPAN, w)
    end.

(** [with tracer.start_as_current_span(name) as s: body]: the span is
    started and made current; on leaving the block, by return or by an
    exception, it is ended and the previous current span restored. *)
Definition start_as_current_span {A : Type} (name : string) (body : span_ref -> M A) : M A :=
  fun w =>
    let i := length (spans w) in
    let outer := context w in
    let w1 := set_context (i :: outer) (set_spans (spans w ++ [mkSpan name ∅ false]) w) in
    let '(r, w2) := body (SpanRef i) w1 in
    let '(_, w3) := span_end (SpanRef i) w2 in
    (r, set_context outer w3).

(** [counter.add(amount, attributes)] and [histogram.record(value, attributes)]
    on the three instruments.  The SDK's histogram drops a negative value
    (with a warning): only a value that is not negative becomes a sample. *)
Definition route_request_counter_add (amount : Z) (attributes : gmap string pyval) : M unit :=
  fun w => (Ok tt, set_route_request_counter (route_request_counter w ++ [(amount, attributes)]) w).

Definition route_processing_time_record (value : Q) (attributes : gmap string pyval) : M unit :=
  fun w =>
    if Qle_bool 0 value then
      (Ok tt, set_route_processing_time (route_processing_time w ++ [(value, attributes)]) w)
    else (Ok tt, w).

Definition error_counter_add (amount : Z) (attributes : gmap string pyval) : M unit :=
  fun w => (Ok tt, set_error_counter (error_counter w ++ [(amount, attributes)]) w).

(** [logger.info(msg, extra=...)] and [logger.error(msg, extra=...)]; the
    logger's level is INFO, so both are emitted. *)
Definition logger_info (msg : string) (extra : gmap string pyval) : M unit :=
  fun w => (Ok tt, set_log (log w ++ [mkLog INFO msg extra]) w).

Definition logger_error (msg : string) (extra : gmap string pyval) : M unit :=
  fun w => (Ok tt, set_log (log w ++ [mkLog ERROR msg extra]) w).

(** [flash(message, category)]. *)
Definition flash (message category : string) : M unit :=
  fun w => (Ok tt, set_flashes (flashes w ++ [(category, message)]) w).

(** ** Requests and responses *)

(** The view werkzeug's URL map matched for the request, or the routing
    exception it raised (404 for an unknown path, 405 for a method the rule
    does not list). *)
Inductive url_rule : Type :=
| rule_index                            (* '/' *)
| rule_course_catalog                   (* '/catalog' *)
| rule_add_courses                      (* '/add_courses', GET and POST *)
| rule_course_details (code : string)   (* '/course/<code>' *)
| routing_exception (status : Z).

(** What the program reads of Flask's [request].  The two attributes
    [before_request] sets on it are mutable state and live in the [world]. *)
Record request : Type := mkRequest {
  method : string;
  path : string;
  url : string;
  remote_addr : option string;
  form : list (string * string);
  matched : url_rule
}.

Inductive response_body : Type :=
| Rendered (template : string) (args : list (string * pyval))
| Redirect (location : string)
| ErrorPage
| Empty.

Record response : Type := mkResponse {
  status_code : Z;
  body : response_body
}.

(** An [Optional[str]] as a Python value. *)
Definition opt_str (o : option string) : pyval :=
  match o with
  | Some s => PStr s
  | None => PNone
  end.

(** [request.form.get(key)]: the first value of the field, or [None]. *)
Fixpoint form_get (fields : list (string * string)) (key : string) : option string :=
  match fields with
  | [] => None
  | (k, v) :: rest => if String.eqb k key then Some v else form_get rest key
  end.

(** [render_template(name, **args)].  The templates are not part of the
    sources; rendering is taken to succeed with a 200 page. *)
Definition render_template (name : string) (args : list (string * pyval)) : M (option response) :=
  ret (Some (mkResponse 200 (Rendered name args))).

(** [url_for(endpoint)] for the one endpoint the program asks for. *)
Definition url_for (endpoint : string) : string :=
  if String.eqb endpoint "course_catalog" then "/catalog" else "/" +:+ endpoint.

(** [redirect(location)]: a 302 response. *)
Definition redirect (location : string) : M (option response) :=
  ret (Some (mkResponse 302 (Redirect location))).

(** ** Utility functions (app.py, lines 66-78) *)

Definition load_courses : M pyval :=
  e <- os_path_exists ;;
  if negb e then ret (PList [])
  else json_load.

Definition save_courses (data : pyval) : M unit :=
  courses <- load_courses ;;
  courses <- lift (append courses data) ;;
  json_dump courses.

(** ** Request hooks (app.py, lines 81-117) *)

(** [now] is what [time.time()] returns at this point. *)
Definition before_request (now : Q) (req : request) : M unit :=
  (fun w => (Ok tt, set_request_start_time (Some now) w)) ;;
  s <- start_span (method req +:+ " " +:+ path req)
         {[ "http.method" := PStr (method req); "http.url" := PStr (url req) ]} ;;
  fun w => (Ok tt, set_request_span (Some s) w).

(** [request.<name>]: an attribute the hook may not have set. *)
Definition getattr {A : Type} (name : string) (field : world -> option A) : M A :=
  fun w =>
    match field w with
    | Some a => (Ok a, w)
    | None => (Raise (AttributeError name), w)
    end.

Definition after_request (now : Q) (req : request) (resp : response) : M response :=
  t0 <- getattr "start_time" request_start_time ;;
  let duration := ((now - t0) * 1000)%Q in
  sp <- getattr "span" request_span ;;
  set_attribute sp "http.status_code" (PInt (status_code resp)) ;;
  (if (400 <=? status_code resp)%Z then
     sp <- getattr "span" request_span ;; set_attribute sp "error" (PBool true)
   else ret tt) ;;
  route_request_counter_add 1
    {[ "route" := PStr (path req); "method" := PStr (method req) ]} ;;
  route_processing_time_record duration
    {[ "route" := PStr (path req); "method" := PStr (method req) ]} ;;
  (if (400 <=? status_code resp)%Z then
     error_counter_add 1 {[ "route" := PStr (path req); "method" := PStr (method req) ]}
   else ret tt) ;;
  sp <- getattr "span" request_span ;;
  span_end sp ;;
  logger_info "Request processed"
    {[ "method" := PStr (method req);
       "path" := PStr (path req);
       "status_code" := PInt (status_code resp);
       "user_ip" := opt_str (remote_addr req);
       "processing_time_ms" := PFloat duration ]} ;;
  ret resp.

(** ** Routes (app.py, lines 119-238) *)

Definition index (req : request) : M (option response) :=
  start_as_current_span "Rendering Home Page" (fun current_span =>
    set_attribute current_span "http.method" (PStr (method req)) ;;
    set_attribute current_span "user.ip" (opt_str (remote_addr req)) ;;
    set_attribute current_span "route" (PStr "/") ;;
    logger_info "Successfully rendered the Home Page"
      {[ "route" := PStr "/";
         "method" := PStr (method req);
         "user_ip" := opt_str (remote_addr req) ]}) ;;
  render_template "index.html" [].

(** [[course[key] for course in courses]]: the items are read in order and
    the first failing one raises. *)
Fixpoint comprehension (key : string) (l : list pyval) : result (list pyval) :=
  match l with
  | [] => Ok []
  | course :: rest =>
      match getitem course key with
      | Raise e => Raise e
      | Ok v =>
          match comprehension key rest with
          | Raise e => Raise e
          | Ok vs => Ok (v :: vs)
          end
      end
  end.

Definition course_names (courses : pyval) : result pyval :=
  match py_iter courses with
  | Raise e => Raise e
  | Ok l =>
      match comprehension "name" l with
      | Raise e => Raise e
      | Ok names => Ok (PList names)
      end
  end.

Definition course_catalog (req : request) : M (option response) :=
  current_span <-
    start_as_current_span "Rendering Course Catalog" (fun _ =>
      current_span <- get_current_span ;;
      set_attribute current_span "http.method" (PStr (method req)) ;;
      set_attribute current_span "user.ip" (opt_str (remote_addr req)) ;;
      set_attribute current_span "route" (PStr "/catalog") ;;
      logger_info "Successfully rendered the Course Catalog Page"
        {[ "route" := PStr "/catalog";
           "method" := PStr (method req);
           "user_ip" := opt_str (remote_addr req) ]} ;;
      ret current_span) ;;
  courses <- load_courses ;;
  count <- lift (py_len courses) ;;
  set_attribute current_span "course.count" count ;;
  names <- lift (course_names courses) ;;
  set_attribute current_span "course.names" names ;;
  render_template "course_catalog.html" [("courses", courses)].

(** The list [add_courses] builds when a field fails [not field]. *)
Definition missing_fields (course_code course_name instructor : option string) : list string :=
  (if negb (truthy (opt_str course_code)) then ["Course Code"] else []) ++
  (if negb (truthy (opt_str course_name)) then ["Course Name"] else []) ++
  (if negb (truthy (opt_str instructor)) then ["Instructor"] else []).

Definition add_courses (req : request) : M (option response) :=
  current_span <-
    start_as_current_span "Handling form submissions" (fun _ =>
      current_span <- get_current_span ;;
      set_attribute current_span "http.method" (PStr (method req)) ;;
      set_attribute current_span "user.ip" (opt_str (remote_addr req)) ;;
      set_attribute current_span "route" (PStr "/add_courses") ;;
      ret current_span) ;;
  if String.eqb (method req) "GET" then render_template "add_courses.html" []
  else if String.eqb (method req) "POST" then
    let course_code := form_get (form req) "course-code" in
    let course_name := form_get (form req) "courseName" in
    let instructor := form_get (form req) "instructor" in
    if negb (truthy (opt_str course_code)) || negb (truthy (opt_str course_name))
       || negb (truthy (opt_str instructor))
    then
      let missing := missing_fields course_code course_name instructor in
      error_counter_add 1
        {[ "route" := PStr "/add_courses"; "error_type" := PStr "missing_fields" ]} ;;
      logger_error "Missing required fields"
        {[ "missing_fields" := PList (map PStr missing);
           "route" := PStr "/add_courses";
           "method" := PStr (method req);
           "user_ip" := opt_str (remote_addr req) ]} ;;
      flash ("Error: Missing required fields: " +:+ join ", " missing) "error" ;;
      redirect (url_for "course_catalog")
    else
      let course :=
        PDict [("code", opt_str course_code);
               ("name", opt_str course_name);
               ("instructor", opt_str instructor)] in
      save_courses course ;;
      set_attribute current_span "course.code" (opt_str course_code) ;;
      set_attribute current_span "course.name" (opt_str course_name) ;;
      set_attribute current_span "course.instructor" (opt_str instructor) ;;
      logger_info "Course added successfully"
        {[ "course_code" := opt_str course_code;
           "course_name" := opt_str course_name;
           "instructor" := opt_str instructor;
           "route" := PStr "/add_courses";
           "method" := PStr (method req);
           "user_ip" := opt_str (remote_addr req) ]} ;;
      flash "Course added successfully!" "success" ;;
      redirect (url_for "course_catalog")
  else ret None.

(** [next((course for course in courses if course['code'] == code), None)]
    over the items of [courses]: the scan stops at the first match, and an
    item that cannot be subscripted raises before any later one is read. *)
Fixpoint next_match (l : list pyval) (code : string) : result pyval :=
  match l with
  | [] => Ok PNone
  | course :: rest =>
      match getitem course "code" with
      | Raise e => Raise e
      | Ok v => if eq_str v code then Ok course else next_match rest code
      end
  end.

Definition find_course (courses : pyval) (code : string) : result pyval :=
  match py_iter courses with
  | Raise e => Raise e
  | Ok l => next_match l code
  end.

Definition course_details (req : request) (code : string) : M (option response) :=
  current_span <-
    start_as_current_span "Rendering Course Details" (fun _ =>
      current_span <- get_current_span ;;
      set_attribute current_span "http.method" (PStr (method req)) ;;
      set_attribute current_span "user.ip" (opt_str (remote_addr req)) ;;
      set_attribute current_span "route" (PStr ("/course/" +:+ code)) ;;
      set_attribute current_span "course.code" (PStr code) ;;
      logger_info ("Successfully rendered Course Details for " +:+ code)
        {[ "course_code" := PStr code;
           "route" := PStr ("/course/" +:+ code);
           "method" := PStr (method req);
           "user_ip" := opt_str (remote_addr req) ]} ;;
      ret current_span) ;;
  courses <- load_courses ;;
  course <- lift (find_course courses code) ;;
  if negb (truthy course) then
    set_attribute current_span "error" (PBool true) ;;
    logger_error ("No course found with code: " +:+ code)
      {[ "course_code" := PStr code;
         "route" := PStr ("/course/" +:+ code);
         "method" := PStr (method req);
         "user_ip" := opt_str (remote_addr req) ]} ;;
    flash ("No course found with code '" +:+ code +:+ "'.") "error" ;;
    redirect (url_for "course_catalog")
  else render_template "course_details.html" [("course", course)].

(** ** Flask's handling of one request

    The part of [Flask.wsgi_app] the hooks and views run under, after
    Flask's own functions of the same names. *)

Definition try_except {A : Type} (m : M A) (handler : exn -> M A) : M A :=
  fun w =>
    match m w with
    | (Ok a, w') => (Ok a, w')
    | (Raise e, w') => handler e w'
    end.

(** A new request context: a fresh [request] object, no attribute set. *)
Definition push_request_context : M unit :=
  fun w => (Ok tt, set_request_span None (set_request_start_time None w)).

(** The view of the matched rule is called; a routing exception is raised
    here; OPTIONS is answered by Flask itself. *)
Definition dispatch_request (req : request) : M (option response) :=
  match matched req with
  | routing_exception status => raise (HTTPException status)
  | rule =>
      if String.eqb (method req) "OPTIONS" then ret (Some (mkResponse 200 Empty))
      else
        match rule with
        | rule_index => index req
        | rule_course_catalog => course_catalog req
        | rule_add_courses => add_courses req
        | rule_course_details code => course_details req code
        | routing_exception status => raise (HTTPException status)
        end
  end.

(** A view that returned [None] is an error. *)
Definition make_response (rv : option response) : M response :=
  match rv with
  | Some r => ret r
  | None => raise (TypeError "The view function did not return a valid response")
  end.

(** The response goes through the [after_request] functions; an error in
    them is swallowed only when already handling an error. *)
Definition finalize_request (now : Q) (req : request) (rv : option response)
    (from_error_handler : bool) : M response :=
  resp <- make_response rv ;;
  try_except (after_request now req resp)
    (fun e => if from_error_handler then ret resp else raise e).

(** An HTTP exception becomes its error response; the program registers
    no error handler, so any other exception is raised again. *)
Definition handle_user_exception (e : exn) : M (option response) :=
  match e with
  | HTTPException code => ret (Some (mkResponse code ErrorPage))
  | _ => raise e
  end.

(** [t0] and [t1] are the readings of [time.time()] in [before_request]
    and in [after_request]. *)
Definition full_dispatch_request (t0 t1 : Q) (req : request) : M response :=
  rv <- try_except (before_request t0 req ;; dispatch_request req) handle_user_exception ;;
  finalize_request t1 req rv false.

(** An exception nothing handled: raised again when exceptions propagate
    (debug or testing mode), a finalized 500 response otherwise. *)
Definition handle_exception (propagate : bool) (t1 : Q) (req : request) (e : exn) : M response :=
  if propagate then raise e
  else finalize_request t1 req (Some (mkResponse 500 ErrorPage)) true.

(** [propagate] is Flask's PROPAGATE_EXCEPTIONS; [app.run(debug=True)]
    (line 241) serves with it on. *)
Definition wsgi_app (propagate : bool) (t0 t1 : Q) (req : request) : M response :=
  push_request_context ;;
  try_except (full_dispatch_request t0 t1 req) (handle_exception propagate t1 req).

(** * Specification vocabulary *)

(** ** What a view may do to the telemetry and to the request *)

Definition ended (s : span) : Prop := span_ended s = true.

Definition request_processed (r : log_record) : Prop :=
  log_message r = "Request processed".

(** The spans a view starts are ended when it returns or raises, the
    spans that existed are left as they were, the request counter, the
    histogram and the request's two attributes are not touched, and no
    line it logs is the hook's. *)
Record view_effect (w w' : world) : Prop := mkViewEffect {
  ve_spans : ∃ vs, spans w' = spans w ++ vs ∧ Forall ended vs;
  ve_context : context w' = context w;
  ve_requests : route_request_counter w' = route_request_counter w;
  ve_times : route_processing_time w' = route_processing_time w;
  ve_log : ∃ lg, log w' = log w ++ lg ∧ Forall (λ r, ¬ request_processed r) lg;
  ve_start_time : request_start_time w' = request_start_time w;
  ve_request_span : request_span w' = request_span w
}.


(** The attributes the hook gives the request counter, the histogram and
    the error counter. *)
Definition metric_attributes (req : request) : gmap string pyval :=
  {[ "route" := PStr (path req); "method" := PStr (method req) ]}.

(** What the histogram keeps of an elapsed time handed to it by the hook. *)
Definition histogram_sample (req : request) (elapsed : Q) : list (Q * gmap string pyval) :=
  if Qle_bool 0 elapsed then [(elapsed, metric_attributes req)] else [].

(** The span's attributes once the hook has tagged it for a response of
    the given status. *)
Definition tagged (status : Z) (attributes : gmap string pyval) : gmap string pyval :=
  if (400 <=? status)%Z then
    <["error" := PBool true]> (<["http.status_code" := PInt status]> attributes)
  else <["http.status_code" := PInt status]> attributes.

(** The log record of a processed request. *)
Definition request_line (req : request) (status : Z) (elapsed : Q) : log_record :=
  mkLog INFO "Request processed"
    {[ "method" := PStr (method req);
       "path" := PStr (path req);
       "status_code" := PInt status;
       "user_ip" := opt_str (remote_addr req);
       "processing_time_ms" := PFloat elapsed ]}.

(** The span [before_request] opens. *)
Definition request_span_opened (req : request) : span :=
  mkSpan (method req +:+ " " +:+ path req)
    {[ "http.method" := PStr (method req); "http.url" := PStr (url req) ]} false.

(** ** Sample worlds and requests *)

Definition empty_world : world := mkWorld None 0 [] [] [] [] [] [] [] None None.

(** A course file holding text that is not JSON. *)
Definition corrupt_world : world :=
  mkWorld (Some Undecodable) 0 [] [] [] [] [] [] [] None None.

Definition get_catalog : request :=
  mkRequest "GET" "/catalog" "http://localhost:5000/catalog" (Some "127.0.0.1") []
    rule_course_catalog.

Definition cs203 : pyval :=
  PDict [("code", PStr "CS203"); ("name", PStr "Systems"); ("instructor", PStr "Dr. Y")].

(** A course file holding the one course [cs203]. *)
Definition one_course_world : world :=
  mkWorld (Some (Encodes (PList [cs203]))) 0 [] [] [] [] [] [] [] None None.

(** The world GET /catalog leaves when its view returns, over
    [one_course_world] and with the clock at 1, and the page it returns. *)
Definition catalog_view_exit : world :=
  snd (course_catalog get_catalog (snd (before_request 1 get_catalog one_course_world))).

Definition catalog_page : response :=
  mkResponse 200 (Rendered "course_catalog.html" [("courses", PList [cs203])]).

(** A course file holding valid JSON that is not an array: [{}]. *)
Definition object_world : world :=
  mkWorld (Some (Encodes (PDict []))) 0 [] [] [] [] [] [] [] None None.

(** A form field that was not sent, or was sent empty. *)
Definition absent (o : option string) : Prop := o = None ∨ o = Some "".

(** POST /add_courses with the given form. *)
Definition post_add_courses (fields : list (string * string)) : request :=
  mkRequest "POST" "/add_courses" "http://localhost:5000/add_courses" (Some "127.0.0.1")
    fields rule_add_courses.

(** A form field that was sent with a non-empty value. *)
Definition present (o : option string) (s : string) : Prop := o = Some s ∧ s ≠ "".

(** The characters Python's [str.strip] removes. *)
Definition is_space (c : Ascii.ascii) : bool :=
  match Ascii.nat_of_ascii c with
  | 9 | 10 | 11 | 12 | 13 | 32 => true
  | _ => false
  end%nat.

Fixpoint all_spaces (s : string) : bool :=
  match s with
  | EmptyString => true
  | String c rest => is_space c && all_spaces rest
  end.

(** A non-empty string of whitespace only. *)
Definition whitespace_only (s : string) : Prop := s ≠ "" ∧ all_spaces s = true.

(** The record [add_courses] builds from the three fields. *)
Definition course_record (code name instructor : string) : pyval :=
  PDict [("code", PStr code); ("name", PStr name); ("instructor", PStr instructor)].

(** The course file was not written. *)
Definition file_unchanged (w w' : world) : Prop :=
  course_file w' = course_file w ∧ file_writes w' = file_writes w.

(** The course file was written once, with the collection it held
    followed by one more record. *)
Definition record_appended (w w' : world) : Prop :=
  ∃ cs c,
    fst (load_courses w) = Ok (PList cs) ∧
    course_file w' = Some (Encodes (PList (cs ++ [c]))) ∧
    file_writes w' = S (file_writes w).

(** The ["code"] entry of a record, when it is a dict that has one. *)
Definition code_of (course : pyval) : option pyval :=
  match course with
  | PDict items => dict_get items "code"
  | _ => None
  end.

(** A record whose code is exactly [code]. *)
Definition has_code (code : string) (course : pyval) : Prop :=
  code_of course = Some (PStr code).

(** A record with a code that is not [code]. *)
Definition other_code (code : string) (course : pyval) : Prop :=
  ∃ v, code_of course = Some v ∧ v ≠ PStr code.

(** GET /course/<code>. *)
Definition get_course (code : string) : request :=
  mkRequest "GET" ("/course/" +:+ code) ("http://localhost:5000/course/" +:+ code)
    (Some "127.0.0.1") [] (rule_course_details code).

Definition cs101 : pyval := course_record "CS101" "Intro" "Dr. A".

(** A second record with the code of [cs203]. *)
Definition cs203_again : pyval := course_record "CS203" "Systems II" "Dr. Q".

Definition two_course_world : world :=
  mkWorld (Some (Encodes (PList [cs101; cs203]))) 0 [] [] [] [] [] [] [] None None.

(** Three submissions: an empty course code, an empty course name, and a
    code and a name made of blanks. *)
Definition missing_code_submission : request :=
  post_add_courses [("course-code", ""); ("courseName", "Algo"); ("instructor", "Dr. X")].

Definition missing_name_submission : request :=
  post_add_courses [("course-code", "CS301"); ("courseName", ""); ("instructor", "Dr. X")].

Definition whitespace_submission : request :=
  post_add_courses [("course-code", " "); ("courseName", "  "); ("instructor", "Dr. X")].

(** ** Vocabulary for the store, the pages and a run of requests *)

(** The ["name"] entry of a record, when it is a dict that has one. *)
Definition name_of (course : pyval) : option pyval :=
  match course with
  | PDict items => dict_get items "name"
  | _ => None
  end.

(** A record as the submission route writes it: three non-empty strings. *)
Definition well_formed_course (course : pyval) : Prop :=
  ∃ code name instructor,
    course = course_record code name instructor ∧
    code ≠ "" ∧ name ≠ "" ∧ instructor ≠ "".

(** The store loads as a collection of such records. *)
Definition well_formed_store (w : world) : Prop :=
  ∃ cs, fst (load_courses w) = Ok (PList cs) ∧ Forall well_formed_course cs.


(** The hook's log line, as a test. *)
Definition is_request_line (r : log_record) : bool :=
  String.eqb (log_message r) "Request processed".

(** An arrival whose second clock reading is not before its first: its
    elapsed time is not negative. *)
Definition clock_forward (arrival : request * Q * Q) : bool :=
  Qle_bool (snd (fst arrival)) (snd arrival).

(** Requests served one after the other, as the development server does;
    each comes with the two clock readings of its hooks. *)
Fixpoint serve (propagate : bool) (arrivals : list (request * Q * Q)) (w : world) : world :=
  match arrivals with
  | [] => w
  | (req, t0, t1) :: rest => serve propagate rest (snd (wsgi_app propagate t0 t1 req w))
  end.

(** A store holding an array with a record that has no name. *)
Definition nameless_world : world :=
  mkWorld (Some (Encodes (PList [cs203; PDict [("code", PStr "CS999")]])))
    0 [] [] [] [] [] [] [] None None.

(** A store holding an array whose first record has no code. *)
Definition codeless_world : world :=
  mkWorld (Some (Encodes (PList [PDict [("name", PStr "Orphan")]; cs203])))
    0 [] [] [] [] [] [] [] None None.

(** A submission of a new course, and one repeating the code of [cs203]. *)
Definition new_course_submission : request :=
  post_add_courses
    [("course-code", "CS204"); ("courseName", "Networks"); ("instructor", "Dr. Z")].

Definition missing_all_submission : request := post_add_courses [].

(** HEAD /add_courses: Flask routes it to the view of the GET rule. *)
Definition head_add_courses : request :=
  mkRequest "HEAD" "/add_courses" "http://localhost:5000/add_courses" (Some "127.0.0.1") []
    rule_add_courses.

(** * Properties *)

(** ** Symbolic execution *)

Lemma lookup_snoc {A : Type} (l : list A) (x : A) : (l ++ [x]) !! length l = Some x.
Proof. by apply list_lookup_middle. Qed.

Lemma insert_snoc {A : Type} (l : list A) (x y : A) :
  <[length l := y]> (l ++ [x]) = l ++ [y].
Proof. rewrite insert_app_r_alt; [|lia]. by rewrite Nat.sub_diag. Qed.

(** Runs a computation on a world given field by field. *)
Ltac run :=
  repeat (cbn -[Qmult Qminus Qle Qle_bool insert empty singletonM String.append];
          rewrite ?lookup_snoc, ?insert_snoc).

Ltac unfold_lib :=
  unfold load_courses, save_courses, os_path_exists, json_load, json_dump, lift,
    start_as_current_span, start_span, get_current_span, set_attribute, span_end,
    route_request_counter_add, route_processing_time_record, error_counter_add,
    logger_info, logger_error, flash, redirect, render_template, getattr,
    bind, ret, raise,
    write_course_file, set_spans, set_context, set_route_request_counter,
    set_route_processing_time, set_error_counter, set_log, set_flashes,
    set_request_start_time, set_request_span in *.

Ltac solve_extension :=
  first
    [ exists []; split; [by rewrite app_nil_r | constructor]
    | rewrite <- ?app_assoc; eexists; split;
      [ reflexivity
      | repeat constructor; unfold request_processed;
        cbn [log_message]; cbv [String.append]; discriminate ] ].

Ltac solve_view_effect :=
  split; cbn;
  [ solve_extension | reflexivity | reflexivity | reflexivity
  | solve_extension | reflexivity | reflexivity ].

Lemma index_effect (req : request) (w : world) :
  view_effect w (snd (index req w)).
Proof.
  destruct w. unfold index. unfold_lib. run. solve_view_effect.
Qed.

Lemma course_catalog_effect (req : request) (w : world) :
  view_effect w (snd (course_catalog req w)).
Proof.
  destruct w as [[[|v]|] ? ? ? ? ? ? ? ? ? ?]; unfold course_catalog; unfold_lib; run.
  - solve_view_effect.
  - destruct (py_len v); run; [destruct (course_names v); run|]; solve_view_effect.
  - solve_view_effect.
Qed.

Lemma add_courses_effect (req : request) (w : world) :
  view_effect w (snd (add_courses req w)).
Proof.
  destruct w as [f ? ? ? ? ? ? ? ? ? ?]; unfold add_courses; unfold_lib; run.
  destruct (String.eqb (method req) "GET"); run; [solve_view_effect|].
  destruct (String.eqb (method req) "POST"); run; [|solve_view_effect].
  destruct (_ || _); run; [solve_view_effect|].
  destruct f as [[|v]|]; run; [solve_view_effect| |solve_view_effect].
  destruct (append v _); run; solve_view_effect.
Qed.

Lemma course_details_effect (req : request) (code : string) (w : world) :
  view_effect w (snd (course_details req code w)).
Proof.
  destruct w as [f ? ? ? ? ? ? ? ? ? ?]; unfold course_details; unfold_lib; run.
  destruct f as [[|v]|]; run.
  - solve_view_effect.
  - destruct (find_course v code) as [c|]; run; [|solve_view_effect].
    destruct (negb (truthy c)); run; solve_view_effect.
  - solve_view_effect.
Qed.

Lemma dispatch_request_effect (req : request) (w : world) :
  view_effect w (snd (dispatch_request req w)).
Proof.
  unfold dispatch_request.
  assert (view_effect w w) as Hrefl.
  { split; try reflexivity; exists []; by rewrite app_nil_r. }
  destruct (matched req); try (cbn; exact Hrefl);
    (destruct (String.eqb (method req) "OPTIONS"); [cbn; exact Hrefl|]).
  - apply index_effect.
  - apply course_catalog_effect.
  - apply add_courses_effect.
  - apply course_details_effect.
Qed.

(** ** The request hooks *)

Lemma before_request_run (t0 : Q) (req : request) (w : world) :
  before_request t0 req w =
  (Ok tt,
   set_request_span (Some (SpanRef (length (spans w))))
     (set_spans (spans w ++ [request_span_opened req])
        (set_request_start_time (Some t0) w))).
Proof. destruct w. reflexivity. Qed.

Lemma after_request_run (t0 t1 : Q) (req : request) (resp : response) (w : world)
    (i : nat) (sp : span) :
  request_start_time w = Some t0 →
  request_span w = Some (SpanRef i) →
  spans w !! i = Some sp →
  span_ended sp = false →
  after_request t1 req resp w =
  (Ok resp,
   set_log (log w ++ [request_line req (status_code resp) ((t1 - t0) * 1000)])
     (set_spans
        (<[i := mkSpan (span_name sp) (tagged (status_code resp) (span_attributes sp)) true]>
           (spans w))
        (set_error_counter
           (error_counter w ++
            if (400 <=? status_code resp)%Z then [(1%Z, metric_attributes req)] else [])
           (set_route_processing_time
              (route_processing_time w ++ histogram_sample req ((t1 - t0) * 1000))
              (set_route_request_counter
                 (route_request_counter w ++ [(1%Z, metric_attributes req)]) w))))).
Proof.
  destruct w, sp as [name attrs e]. cbn. intros -> -> Hi ->.
  pose proof (lookup_lt_Some _ _ _ Hi) as Hlt.
  unfold after_request, tagged, request_line, histogram_sample, metric_attributes.
  unfold_lib. run.
  rewrite Hi. run.
  destruct (400 <=? status_code resp)%Z, (Qle_bool 0 ((t1 - t0) * 1000)); run;
    rewrite ?list_lookup_insert_eq by done; run;
    rewrite ?list_lookup_insert_eq by (by rewrite length_insert); run;
    rewrite ?list_insert_insert_eq, ?app_nil_r; reflexivity.
Qed.

(** ** One request through Flask *)

(** The world in which the view of a request starts. *)
Lemma view_entry (t0 : Q) (req : request) (w : world) :
  let w1 := snd (before_request t0 req (snd (push_request_context w))) in
  spans w1 = spans w ++ [request_span_opened req] ∧
  request_start_time w1 = Some t0 ∧
  request_span w1 = Some (SpanRef (length (spans w))) ∧
  course_file w1 = course_file w ∧ file_writes w1 = file_writes w ∧
  route_request_counter w1 = route_request_counter w ∧
  route_processing_time w1 = route_processing_time w ∧
  error_counter w1 = error_counter w ∧
  log w1 = log w ∧ context w1 = context w ∧ flashes w1 = flashes w.
Proof. destruct w. cbn. repeat split. Qed.

(** The world in which the view of a request ends: the hook's span is
    still open and still the request's. *)
Lemma view_exit (t0 : Q) (req : request) (w : world) :
  let w1 := snd (before_request t0 req (snd (push_request_context w))) in
  let w2 := snd (dispatch_request req w1) in
  ∃ vs lg,
    spans w2 = spans w ++ request_span_opened req :: vs ∧ Forall ended vs ∧
    log w2 = log w ++ lg ∧ Forall (λ r, ¬ request_processed r) lg ∧
    request_start_time w2 = Some t0 ∧
    request_span w2 = Some (SpanRef (length (spans w))) ∧
    spans w2 !! length (spans w) = Some (request_span_opened req) ∧
    route_request_counter w2 = route_request_counter w ∧
    route_processing_time w2 = route_processing_time w ∧
    context w2 = context w.
Proof.
  intros w1 w2.
  destruct (view_entry t0 req w) as (Hs & Ht & Hr & _ & _ & Hc & Hp & _ & Hl & Hx & _).
  fold w1 in Hs, Ht, Hr, Hc, Hp, Hl, Hx.
  destruct (dispatch_request_effect req w1) as [(vs & Hvs & Hended) Hctx Hreq Htime
    (lg & Hlg & Hnot) Hst Hsp].
  fold w2 in Hvs, Hctx, Hreq, Htime, Hlg, Hst, Hsp.
  exists vs, lg.
  assert (spans w2 = spans w ++ request_span_opened req :: vs) as Hspans.
  { rewrite Hvs, Hs, <- app_assoc. reflexivity. }
  repeat split; try congruence.
  rewrite Hspans. by apply list_lookup_middle.
Qed.

(** Flask either runs [after_request] on some response in the world the
    view left, or, when exceptions propagate, raises from that world
    without running it. *)
Lemma wsgi_app_cases (propagate : bool) (t0 t1 : Q) (req : request) (w : world) :
  let w1 := snd (before_request t0 req (snd (push_request_context w))) in
  let w2 := snd (dispatch_request req w1) in
  (∃ resp, wsgi_app propagate t0 t1 req w = after_request t1 req resp w2 ∧
           fst (after_request t1 req resp w2) = Ok resp) ∨
  (propagate = true ∧ ∃ e, wsgi_app propagate t0 t1 req w = (Raise e, w2)).
Proof.
  intros w1 w2.
  destruct (view_exit t0 req w) as (vs & lg & _ & _ & _ & _ & Ht & Hr & Hi & _).
  fold w1 in Ht, Hr, Hi. fold w2 in Ht, Hr, Hi.
  assert (∀ resp, ∃ w3, after_request t1 req resp w2 = (Ok resp, w3)) as Hafter.
  { intros resp. eexists. by eapply after_request_run. }
  assert (before_request t0 req (set_request_span None (set_request_start_time None w))
          = (Ok tt, w1)) as Hw1.
  { subst w1. destruct w. reflexivity. }
  unfold wsgi_app, full_dispatch_request, handle_exception, try_except, bind,
    push_request_context.
  rewrite Hw1. clear Ht Hr Hi. subst w2.
  destruct (dispatch_request req w1) as [r w2]. cbn [snd] in *.
  unfold finalize_request, try_except, make_response, bind, ret, raise.
  destruct r as [[resp|]|e].
  - left. exists resp. destruct (Hafter resp) as [w3 ->]. (split; reflexivity).
  - destruct propagate.
    + right. eauto.
    + left. exists (mkResponse 500 ErrorPage). destruct (Hafter (mkResponse 500 ErrorPage)) as [w3 ->]. (split; reflexivity).
  - destruct e; cbn [handle_user_exception]; unfold ret, raise;
      try (destruct propagate;
           [ right; eauto
           | left; exists (mkResponse 500 ErrorPage); destruct (Hafter (mkResponse 500 ErrorPage)) as [w3 ->]; (split; reflexivity) ]).
    left. exists (mkResponse code ErrorPage). destruct (Hafter (mkResponse code ErrorPage)) as [w3 ->]. (split; reflexivity).
Qed.

Lemma elapsed_nonneg (t0 t1 : Q) : (t0 <= t1)%Q → (0 <= (t1 - t0) * 1000)%Q.
Proof.
  intros H. apply Qmult_le_0_compat; [|discriminate].
  unfold Qminus. by apply Qle_minus_iff in H.
Qed.

(** C1, amended.  Whenever Flask answers the request -- the view returned,
    the request ended in an HTTP error, or an exception was turned into a
    500 response because exceptions do not propagate -- the hooks have
    started one span named after the request and ended it, every span a
    view started is ended too, the request counter has one more sample,
    and the log has exactly one more "Request processed" line, whose
    elapsed time is non-negative when the second clock reading is not
    before the first.  The only other exit is an exception raised while
    exceptions propagate: [after_request] has not run, the request's span
    is still open, and no sample and no such line were added. *)
Theorem interceptor_exit_paths (propagate : bool) (t0 t1 : Q) (req : request) (w : world) :
  match wsgi_app propagate t0 t1 req w with
  | (Ok resp, w') =>
      ∃ sp vs lg,
        spans w' = spans w ++ sp :: vs ∧
        span_name sp = method req +:+ " " +:+ path req ∧
        Forall ended (sp :: vs) ∧
        route_request_counter w' =
          route_request_counter w ++ [(1%Z, metric_attributes req)] ∧
        log w' = log w ++ lg ++ [request_line req (status_code resp) ((t1 - t0) * 1000)] ∧
        Forall (λ r, ¬ request_processed r) lg ∧
        ((t0 <= t1)%Q → (0 <= (t1 - t0) * 1000)%Q)
  | (Raise e, w') =>
      propagate = true ∧
      ∃ vs lg,
        spans w' = spans w ++ request_span_opened req :: vs ∧
        route_request_counter w' = route_request_counter w ∧
        log w' = log w ++ lg ∧
        Forall (λ r, ¬ request_processed r) lg
  end.
Proof.
  pose proof (wsgi_app_cases propagate t0 t1 req w) as Hcases.
  pose proof (view_exit t0 req w) as Hexit.
  cbv zeta in Hcases, Hexit.
  set (w2 := snd (dispatch_request req _)) in *.
  destruct Hexit as (vs & lg & Hspans & Hended & Hlog & Hnot & Ht & Hr & Hi & Hc & _ & _).
  destruct Hcases as [(resp & -> & Hok)|(-> & e & ->)].
  - rewrite (after_request_run t0 t1 req resp w2 _ _ Ht Hr Hi eq_refl) in Hok |- *.
    destruct w2. cbn in *. subst.
    eexists _, vs, lg. repeat split.
    + rewrite insert_app_r_alt by lia. rewrite Nat.sub_diag. reflexivity.
    + reflexivity.
    + constructor; [reflexivity|done].
    + by rewrite <- app_assoc.
    + done.
    + apply elapsed_nonneg.
  - split; [reflexivity|]. exists vs, lg. done.
Qed.

(** C1 as stated fails.  Served as [app.run(debug=True)] serves it, a
    GET /catalog over a course file that is not JSON raises out of the view:
    the hook's span "GET /catalog" stays open, the request counter gets no
    sample and no "Request processed" line is logged.  And when the clock
    is set back between the two readings (2 then 1) the logged elapsed time
    is negative. *)
Lemma interceptor_skipped_when_exception_propagates :
  (let '(r, w') := wsgi_app true 1 2 get_catalog corrupt_world in
   r = Raise JSONDecodeError ∧
   map (λ s, (span_name s, span_ended s)) (spans w') =
     [("GET /catalog", false); ("Rendering Course Catalog", true)] ∧
   route_request_counter w' = [] ∧
   map log_message (log w') = ["Successfully rendered the Course Catalog Page"]) ∧
  (let '(r, w') := wsgi_app false 2 1 get_catalog empty_world in
   ∃ line, log w' !! 1%nat = Some line ∧
     log_message line = "Request processed" ∧
     log_extra line !! "processing_time_ms" = Some (PFloat (-1000)) ∧
     (-1000 < 0)%Q).
Proof.
  split.
  - vm_compute. repeat split.
  - vm_compute. eexists. repeat split.
Qed.

(** ** The hooks on one request *)

Lemma elapsed_recorded (t0 t1 : Q) :
  (t0 <= t1)%Q → Qle_bool 0 ((t1 - t0) * 1000) = true.
Proof. intros H. apply Qle_bool_iff. by apply elapsed_nonneg. Qed.

Lemma elapsed_dropped (t0 t1 : Q) :
  (t1 < t0)%Q → Qle_bool 0 ((t1 - t0) * 1000) = false.
Proof.
  intros H. destruct (Qle_bool 0 ((t1 - t0) * 1000)) eqn:E; [|reflexivity].
  apply Qle_bool_iff in E. exfalso. apply (Qlt_not_le _ _ H).
  apply Qle_minus_iff. fold (Qminus t1 t0).
  apply (Qmult_le_r _ _ 1000); [reflexivity|]. by rewrite Qmult_0_l.
Qed.

(** C2, amended.  At request start the hook records the clock reading and
    opens a span named "<METHOD> <PATH>" carrying the method and the URL.
    Run on any later world in which the request still carries that reading
    and that span, still open, the completion hook returns the response as
    it got it, tags the span with the status code, flags it as an error
    exactly when the status is 400 or more, ends it, adds one sample to the
    request counter (keyed by route and method), adds one sample to the
    error counter exactly when the status is 400 or more, and logs one
    record holding the method, path, status code, client address and
    elapsed time.  The elapsed time is handed to the histogram under the
    same key: it becomes a sample when the second clock reading is not
    before the first, and is dropped when the clock was set back in
    between. *)
Theorem hooks_record_request (t0 t1 : Q) (req : request) (resp : response)
    (w w2 : world) :
  let i := length (spans w) in
  let w1 := snd (before_request t0 req w) in
  let w3 := snd (after_request t1 req resp w2) in
  let status := status_code resp in
  let keyed : gmap string pyval :=
    {[ "route" := PStr (path req); "method" := PStr (method req) ]} in
  request_start_time w2 = request_start_time w1 →
  request_span w2 = request_span w1 →
  spans w2 !! i = spans w1 !! i →
  (fst (before_request t0 req w) = Ok tt ∧
   request_start_time w1 = Some t0 ∧
   request_span w1 = Some (SpanRef i) ∧
   spans w1 = spans w ++
     [mkSpan (method req +:+ " " +:+ path req)
        {[ "http.method" := PStr (method req); "http.url" := PStr (url req) ]} false]) ∧
  (fst (after_request t1 req resp w2) = Ok resp ∧
   length (spans w3) = length (spans w2) ∧
   (∀ j, j ≠ i → spans w3 !! j = spans w2 !! j) ∧
   (∃ sp, spans w3 !! i = Some sp ∧
      span_name sp = method req +:+ " " +:+ path req ∧
      span_ended sp = true ∧
      span_attributes sp !! "http.method" = Some (PStr (method req)) ∧
      span_attributes sp !! "http.url" = Some (PStr (url req)) ∧
      span_attributes sp !! "http.status_code" = Some (PInt status) ∧
      (span_attributes sp !! "error" = Some (PBool true) ↔ (400 ≤ status)%Z) ∧
      (span_attributes sp !! "error" = None ↔ (status < 400)%Z)) ∧
   route_request_counter w3 = route_request_counter w2 ++ [(1%Z, keyed)] ∧
   ((t0 <= t1)%Q →
    route_processing_time w3 =
      route_processing_time w2 ++ [(((t1 - t0) * 1000)%Q, keyed)]) ∧
   ((t1 < t0)%Q → route_processing_time w3 = route_processing_time w2) ∧
   error_counter w3 =
     error_counter w2 ++ (if (400 <=? status)%Z then [(1%Z, keyed)] else []) ∧
   log w3 = log w2 ++
     [mkLog INFO "Request processed"
        {[ "method" := PStr (method req);
           "path" := PStr (path req);
           "status_code" := PInt status;
           "user_ip" := opt_str (remote_addr req);
           "processing_time_ms" := PFloat ((t1 - t0) * 1000) ]}]).
Proof.
  intros i w1 w3 status keyed Ht Hr Hi.
  subst w1 w3. rewrite before_request_run in *.
  cbn [fst snd] in *.
  assert (spans w2 !! i = Some (request_span_opened req)) as Hi'.
  { rewrite Hi. destruct w. cbn. apply lookup_snoc. }
  assert (request_start_time w2 = Some t0) as Ht' by (rewrite Ht; by destruct w).
  assert (request_span w2 = Some (SpanRef i)) as Hr' by (rewrite Hr; by destruct w).
  split; [by destruct w|].
  rewrite (after_request_run t0 t1 req resp w2 i _ Ht' Hr' Hi' eq_refl).
  pose proof (lookup_lt_Some _ _ _ Hi') as Hlt.
  destruct w2. cbn -[Qle_bool Qmult Qminus] in *. unfold histogram_sample.
  split; [reflexivity|]. split; [apply length_insert|].
  split; [intros j Hj; by apply list_lookup_insert_ne|].
  split.
  { eexists. split; [by apply list_lookup_insert_eq|]. cbn. fold status.
    unfold tagged. pose proof (Z.leb_spec 400 status) as Hs.
    destruct (400 <=? status)%Z; inversion Hs; simplify_map_eq;
      repeat split; try done; try lia. }
  split; [reflexivity|].
  split; [intros Hle; by rewrite (elapsed_recorded t0 t1 Hle)|].
  split; [intros Hlt'; by rewrite (elapsed_dropped t0 t1 Hlt'), app_nil_r|].
  split; reflexivity.
Qed.

(** C2 as stated fails: with the clock set back between the two readings
    (2 at request start, 1 at completion) a GET /catalog is answered,
    counted and logged, but the histogram gets no elapsed-time sample. *)
Lemma histogram_drops_negative_elapsed :
  let '(r, w') := wsgi_app false 2 1 get_catalog one_course_world in
  r = Ok catalog_page ∧
  length (route_request_counter w') = 1%nat ∧
  map log_message (log w') =
    ["Successfully rendered the Course Catalog Page"; "Request processed"] ∧
  route_processing_time w' = [].
Proof. vm_compute. repeat split. Qed.

Lemma hooks_record_request_witness :
  (request_start_time catalog_view_exit =
     request_start_time (snd (before_request 1 get_catalog one_course_world)) ∧
   request_span catalog_view_exit =
     request_span (snd (before_request 1 get_catalog one_course_world)) ∧
   spans catalog_view_exit !! length (spans one_course_world) =
     spans (snd (before_request 1 get_catalog one_course_world))
       !! length (spans one_course_world)) ∧
  fst (after_request 2 get_catalog catalog_page catalog_view_exit) = Ok catalog_page.
Proof.
  split; [repeat split|].
  pose proof (hooks_record_request 1 2 get_catalog catalog_page one_course_world
    catalog_view_exit eq_refl eq_refl eq_refl) as H.
  destruct H as (_ & H & _). exact H.
Defined.

(** ** The course store *)

(** C3, amended.  [load_courses] returns the empty list when the file does
    not exist; when it exists it returns whatever value the file's JSON
    text decodes to, array or not, and raises the decoder's error exactly
    when the text is not JSON.  It changes nothing. *)
Theorem load_courses_result (w : world) :
  load_courses w =
  match course_file w with
  | None => (Ok (PList []), w)
  | Some Undecodable => (Raise JSONDecodeError, w)
  | Some (Encodes v) => (Ok v, w)
  end.
Proof. destruct w as [[[|v]|] ? ? ? ? ? ? ? ? ? ?]; reflexivity. Qed.

(** C3 as stated fails: over a file holding the JSON object [{}], valid
    JSON that is not an array, [load_courses] raises nothing and returns
    the empty dict. *)
Lemma load_courses_accepts_non_array :
  load_courses object_world = (Ok (PDict []), object_world).
Proof. reflexivity. Qed.

(** ** Submissions *)

Lemma not_field_absent (o : option string) :
  negb (truthy (opt_str o)) = true ↔ absent o.
Proof.
  unfold absent. destruct o as [[|c s]|]; cbn; split; intros H; try done; eauto.
  by destruct H.
Qed.

Lemma not_field_present (o : option string) :
  negb (truthy (opt_str o)) = false ↔ ∃ s, o = Some s ∧ s ≠ "".
Proof.
  destruct o as [[|c s]|]; cbn; split; intros H; try done; eauto.
  - by destruct H as (s & [= <-] & ?).
  - by destruct H as (s & ? & ?).
Qed.

Lemma missing_fields_exact (course_code course_name instructor : option string) :
  let missing := missing_fields course_code course_name instructor in
  ("Course Code" ∈ missing ↔ absent course_code) ∧
  ("Course Name" ∈ missing ↔ absent course_name) ∧
  ("Instructor" ∈ missing ↔ absent instructor) ∧
  (∀ f, f ∈ missing → f = "Course Code" ∨ f = "Course Name" ∨ f = "Instructor") ∧
  NoDup missing.
Proof.
  cbv zeta. rewrite <- !not_field_absent. unfold missing_fields.
  destruct (negb (truthy (opt_str course_code))),
    (negb (truthy (opt_str course_name))),
    (negb (truthy (opt_str instructor))); cbn;
    repeat split; try done; try set_solver;
    repeat (apply NoDup_cons_2; [set_solver|]); apply NoDup_nil_2.
Qed.

(** What POST /add_courses does when a field fails validation. *)
Lemma add_courses_rejected (req : request) (w : world) :
  let course_code := form_get (form req) "course-code" in
  let course_name := form_get (form req) "courseName" in
  let instructor := form_get (form req) "instructor" in
  let missing := missing_fields course_code course_name instructor in
  method req = "POST" →
  absent course_code ∨ absent course_name ∨ absent instructor →
  add_courses req w =
  (Ok (Some (mkResponse 302 (Redirect "/catalog"))),
   set_flashes
     (flashes w ++ [("error", "Error: Missing required fields: " +:+ join ", " missing)])
     (set_log
        (log w ++
         [mkLog ERROR "Missing required fields"
            {[ "missing_fields" := PList (map PStr missing);
               "route" := PStr "/add_courses";
               "method" := PStr (method req);
               "user_ip" := opt_str (remote_addr req) ]}])
        (set_error_counter
           (error_counter w ++
            [(1%Z, {[ "route" := PStr "/add_courses";
                      "error_type" := PStr "missing_fields" ]})])
           (set_spans
              (spans w ++
               [mkSpan "Handling form submissions"
                  {[ "route" := PStr "/add_courses";
                     "user.ip" := opt_str (remote_addr req);
                     "http.method" := PStr (method req) ]} true]) w)))).
Proof.
  intros course_code course_name instructor missing Hpost Habsent.
  rewrite <- !not_field_absent in Habsent.
  assert (negb (truthy (opt_str course_code)) || negb (truthy (opt_str course_name))
          || negb (truthy (opt_str instructor)) = true) as Hcond.
  { destruct Habsent as [->|[->| ->]]; rewrite ?orb_true_r; reflexivity. }
  destruct w. unfold add_courses. unfold_lib. run.
  rewrite Hpost. run. fold course_code course_name instructor. rewrite Hcond.
  reflexivity.
Qed.

(** C4.  A POST /add_courses in which at least one of the three fields is
    absent or empty is refused: the list of missing fields holds "Course
    Code", "Course Name", "Instructor" exactly for the fields that are
    absent or empty, each once and nothing else; the view logs that list
    in an error record, flashes it, and redirects to the catalog. *)
Theorem add_courses_reports_missing_fields (req : request) (w : world) :
  let course_code := form_get (form req) "course-code" in
  let course_name := form_get (form req) "courseName" in
  let instructor := form_get (form req) "instructor" in
  let missing := missing_fields course_code course_name instructor in
  let w' := snd (add_courses req w) in
  method req = "POST" →
  absent course_code ∨ absent course_name ∨ absent instructor →
  ("Course Code" ∈ missing ↔ absent course_code) ∧
  ("Course Name" ∈ missing ↔ absent course_name) ∧
  ("Instructor" ∈ missing ↔ absent instructor) ∧
  (∀ f, f ∈ missing → f = "Course Code" ∨ f = "Course Name" ∨ f = "Instructor") ∧
  NoDup missing ∧
  missing ≠ [] ∧
  fst (add_courses req w) = Ok (Some (mkResponse 302 (Redirect "/catalog"))) ∧
  (∃ line, log w' = log w ++ [line] ∧
     log_level line = ERROR ∧
     log_message line = "Missing required fields" ∧
     log_extra line !! "missing_fields" = Some (PList (map PStr missing))) ∧
  flashes w' =
    flashes w ++ [("error", "Error: Missing required fields: " +:+ join ", " missing)].
Proof.
  intros course_code course_name instructor missing w' Hpost Habsent.
  destruct (missing_fields_exact course_code course_name instructor)
    as (Hcode & Hname & Hinstructor & Hdrawn & Hnodup).
  fold missing in Hcode, Hname, Hinstructor, Hdrawn, Hnodup.
  subst w'. rewrite (add_courses_rejected req w Hpost Habsent).
  fold course_code course_name instructor missing.
  split; [exact Hcode|]. split; [exact Hname|]. split; [exact Hinstructor|].
  split; [exact Hdrawn|]. split; [exact Hnodup|].
  split.
  { intros Hnil. rewrite Hnil in *.
    destruct Habsent as [H|[H|H]];
      [apply Hcode in H|apply Hname in H|apply Hinstructor in H]; by inversion H. }
  destruct w. cbn. split; [reflexivity|]. split; [|reflexivity].
  eexists. repeat split.
Qed.

Lemma add_courses_reports_missing_fields_witness :
  (method missing_code_submission = "POST" ∧
   absent (form_get (form missing_code_submission) "course-code")) ∧
  missing_fields (form_get (form missing_code_submission) "course-code")
    (form_get (form missing_code_submission) "courseName")
    (form_get (form missing_code_submission) "instructor") = ["Course Code"] ∧
  fst (add_courses missing_code_submission one_course_world) =
    Ok (Some (mkResponse 302 (Redirect "/catalog"))).
Proof.
  assert (absent (form_get (form missing_code_submission) "course-code")) as Hcode
    by (right; reflexivity).
  split; [split; [reflexivity | exact Hcode]|].
  split; [reflexivity|].
  pose proof (add_courses_reports_missing_fields missing_code_submission one_course_world
    eq_refl (or_introl Hcode)) as H.
  destruct H as (_ & _ & _ & _ & _ & _ & H & _). exact H.
Defined.

(** ** Appending to the store *)

Lemma save_courses_run (data : pyval) (cs : list pyval) (w : world) :
  fst (load_courses w) = Ok (PList cs) →
  save_courses data w = (Ok tt, write_course_file (Some (Encodes (PList (cs ++ [data])))) w).
Proof.
  rewrite load_courses_result.
  destruct w as [[[|v]|] ? ? ? ? ? ? ? ? ? ?]; cbn; intros [= H]; subst; reflexivity.
Qed.

(** C5.  Over a store that loads as the collection [cs], [save_courses]
    reads it, appends the record and writes the result over the file: the
    file then loads as [cs] followed by the new record, one record longer,
    with every earlier record at its earlier position.  Nothing else in the
    world changes. *)
Theorem save_courses_appends (data : pyval) (cs : list pyval) (w : world) :
  let w' := snd (save_courses data w) in
  fst (load_courses w) = Ok (PList cs) →
  fst (save_courses data w) = Ok tt ∧
  course_file w' = Some (Encodes (PList (cs ++ [data]))) ∧
  file_writes w' = S (file_writes w) ∧
  load_courses w' = (Ok (PList (cs ++ [data])), w') ∧
  length (cs ++ [data]) = S (length cs) ∧
  (∀ i c, cs !! i = Some c → (cs ++ [data]) !! i = Some c) ∧
  (cs ++ [data]) !! length cs = Some data ∧
  (spans w', context w', route_request_counter w', route_processing_time w',
   error_counter w', log w', flashes w', request_start_time w', request_span w') =
  (spans w, context w, route_request_counter w, route_processing_time w,
   error_counter w, log w, flashes w, request_start_time w, request_span w).
Proof.
  intros w' Hload. subst w'. rewrite (save_courses_run data cs w Hload).
  destruct w. cbn. repeat split.
  - rewrite length_app. cbn. lia.
  - intros i c Hc. by apply lookup_app_l_Some.
  - apply lookup_snoc.
Qed.

Lemma save_courses_appends_witness :
  fst (load_courses one_course_world) = Ok (PList [cs203]) ∧
  course_file (snd (save_courses cs101 one_course_world)) =
    Some (Encodes (PList [cs203; cs101])).
Proof.
  split; [reflexivity|].
  pose proof (save_courses_appends cs101 [cs203] one_course_world eq_refl) as H.
  destruct H as (_ & H & _). exact H.
Defined.

(** ** What each route does to the course file *)

Lemma index_file (req : request) (w : world) :
  file_unchanged w (snd (index req w)).
Proof. destruct w. unfold index. unfold_lib. run. split; reflexivity. Qed.

Lemma course_catalog_file (req : request) (w : world) :
  file_unchanged w (snd (course_catalog req w)).
Proof.
  destruct w as [[[|v]|] ? ? ? ? ? ? ? ? ? ?]; unfold course_catalog; unfold_lib; run;
    try (split; reflexivity).
  destruct (py_len v); run; [destruct (course_names v); run|]; split; reflexivity.
Qed.

Lemma course_details_file (req : request) (code : string) (w : world) :
  file_unchanged w (snd (course_details req code w)).
Proof.
  destruct w as [[[|v]|] ? ? ? ? ? ? ? ? ? ?]; unfold course_details; unfold_lib; run;
    try (split; reflexivity).
  destruct (find_course v code) as [c|]; run; [|split; reflexivity].
  destruct (negb (truthy c)); run; split; reflexivity.
Qed.

Lemma add_courses_file (req : request) (w : world) :
  file_unchanged w (snd (add_courses req w)) ∨
  (method req = "POST" ∧ record_appended w (snd (add_courses req w))).
Proof.
  destruct w as [f ? ? ? ? ? ? ? ? ? ?]; unfold add_courses; unfold_lib; run.
  destruct (String.eqb (method req) "GET"); run; [left; split; reflexivity|].
  destruct (String.eqb_spec (method req) "POST") as [Hpost|_]; run;
    [|left; split; reflexivity].
  destruct (_ || _); run; [left; split; reflexivity|].
  destruct f as [[|v]|]; run; [left; split; reflexivity| |].
  - destruct v; run; try (left; split; reflexivity).
    right. split; [done|]. eexists _, _. repeat split.
  - right. split; [done|]. eexists [], _. repeat split.
Qed.

Lemma dispatch_request_file (req : request) (w : world) :
  file_unchanged w (snd (dispatch_request req w)) ∨
  (method req = "POST" ∧ matched req = rule_add_courses ∧
   record_appended w (snd (dispatch_request req w))).
Proof.
  unfold dispatch_request.
  destruct (matched req); try (left; split; reflexivity);
    (destruct (String.eqb (method req) "OPTIONS"); [left; split; reflexivity|]).
  - left. apply index_file.
  - left. apply course_catalog_file.
  - destruct (add_courses_file req w) as [H|[H1 H2]]; [by left|by right].
  - left. apply course_details_file.
Qed.

(** The hooks and Flask's own steps do not touch the course file: after
    a request it is as the view left it. *)
Lemma wsgi_app_file_from_view (propagate : bool) (t0 t1 : Q) (req : request) (w : world) :
  let w1 := snd (before_request t0 req (snd (push_request_context w))) in
  let w2 := snd (dispatch_request req w1) in
  file_unchanged w w1 ∧ file_unchanged w2 (snd (wsgi_app propagate t0 t1 req w)).
Proof.
  intros w1 w2.
  pose proof (wsgi_app_cases propagate t0 t1 req w) as Hcases.
  pose proof (view_exit t0 req w) as Hexit.
  pose proof (view_entry t0 req w) as Hentry.
  cbv zeta in Hcases, Hexit, Hentry. fold w1 in Hcases, Hexit, Hentry.
  fold w2 in Hcases, Hexit.
  destruct Hentry as (_ & _ & _ & Hf & Hn & _).
  split; [by split|].
  destruct Hexit as (vs & lg & _ & _ & _ & _ & Ht & Hr & Hi & _).
  destruct Hcases as [(resp & -> & _)|(_ & e & ->)]; [|by split].
  rewrite (after_request_run t0 t1 req resp w2 _ _ Ht Hr Hi eq_refl).
  by destruct w2.
Qed.

Lemma load_courses_same_file (w w' : world) :
  course_file w' = course_file w → fst (load_courses w') = fst (load_courses w).
Proof.
  intros H. rewrite !load_courses_result, H. by destruct (course_file w) as [[|v]|].
Qed.

Lemma wsgi_app_file (propagate : bool) (t0 t1 : Q) (req : request) (w : world) :
  let w' := snd (wsgi_app propagate t0 t1 req w) in
  file_unchanged w w' ∨
  (method req = "POST" ∧ matched req = rule_add_courses ∧ record_appended w w').
Proof.
  intros w'. subst w'.
  destruct (wsgi_app_file_from_view propagate t0 t1 req w) as [[Hf Hn] [Hf' Hn']].
  set (w1 := snd (before_request t0 req _)) in *.
  destruct (dispatch_request_file req w1) as [[H1 H2]|(Hp & Hm & cs & c & H1 & H2 & H3)].
  - left. split; congruence.
  - right. repeat split; try done. exists cs, c.
    rewrite <- (load_courses_same_file w w1 Hf). repeat split; congruence.
Qed.

(** C8.  Whatever the request, the course file is either left as it was
    or, for a POST to the submission route only, rewritten once as the
    collection it held followed by one new record.  So a request with
    another method (every GET: the home page, the catalog, the form, the
    course page) leaves the file untouched, and no request changes or
    removes a stored record: a collection that loaded before still loads,
    with the same records at the same positions, possibly followed by new
    ones. *)
Theorem records_only_added_by_submission (propagate : bool) (t0 t1 : Q)
    (req : request) (w : world) :
  let w' := snd (wsgi_app propagate t0 t1 req w) in
  (file_unchanged w w' ∨
   (method req = "POST" ∧ matched req = rule_add_courses ∧ record_appended w w')) ∧
  (method req ≠ "POST" → file_unchanged w w') ∧
  (matched req ≠ rule_add_courses → file_unchanged w w') ∧
  (∀ cs, fst (load_courses w) = Ok (PList cs) →
     ∃ added, fst (load_courses w') = Ok (PList (cs ++ added))).
Proof.
  intros w'. pose proof (wsgi_app_file propagate t0 t1 req w) as H.
  cbv zeta in H. fold w' in H.
  split; [exact H|]. split; [|split].
  - intros Hm. destruct H as [H|(Hp & _)]; [exact H|done].
  - intros Hm. destruct H as [H|(_ & Hr & _)]; [exact H|done].
  - intros cs Hcs. destruct H as [[Hf _]|(_ & _ & cs' & c & H1 & H2 & _)].
    + exists []. rewrite app_nil_r, <- Hcs, !load_courses_result, Hf.
      by destruct (course_file w) as [[|v]|].
    + exists [c]. rewrite load_courses_result, H2. cbn. congruence.
Qed.

(** C9.  A POST /add_courses in which a field is absent or empty returns
    the redirect to the catalog and never opens the course file for
    writing: after the view, and after the whole request, the file is the
    one found and loads as before. *)
Theorem rejected_submission_leaves_store (propagate : bool) (t0 t1 : Q)
    (req : request) (w : world) :
  let course_code := form_get (form req) "course-code" in
  let course_name := form_get (form req) "courseName" in
  let instructor := form_get (form req) "instructor" in
  let w' := snd (wsgi_app propagate t0 t1 req w) in
  method req = "POST" →
  matched req = rule_add_courses →
  absent course_code ∨ absent course_name ∨ absent instructor →
  fst (add_courses req w) = Ok (Some (mkResponse 302 (Redirect "/catalog"))) ∧
  file_unchanged w (snd (add_courses req w)) ∧
  file_unchanged w w' ∧
  fst (load_courses w') = fst (load_courses w).
Proof.
  intros course_code course_name instructor w' Hpost Hrule Habsent.
  split; [|split].
  - by rewrite (add_courses_rejected req w Hpost Habsent).
  - rewrite (add_courses_rejected req w Hpost Habsent). by destruct w.
  - assert (file_unchanged w w') as Hfile; [|split; [exact Hfile|]].
    + subst w'.
      destruct (wsgi_app_file_from_view propagate t0 t1 req w) as [[Hf Hn] [Hf' Hn']].
      set (w1 := snd (before_request t0 req _)) in *.
      assert (file_unchanged w1 (snd (dispatch_request req w1))) as [Hd Hd'].
      { unfold dispatch_request. rewrite Hrule, Hpost. cbn [String.eqb Ascii.eqb Bool.eqb].
        rewrite (add_courses_rejected req w1 Hpost Habsent). by destruct w1. }
      split; congruence.
    + apply load_courses_same_file, Hfile.
Qed.

Lemma rejected_submission_leaves_store_witness :
  (method missing_name_submission = "POST" ∧
   matched missing_name_submission = rule_add_courses ∧
   absent (form_get (form missing_name_submission) "courseName")) ∧
  file_unchanged one_course_world
    (snd (wsgi_app true 1 2 missing_name_submission one_course_world)).
Proof.
  assert (absent (form_get (form missing_name_submission) "courseName")) as Hname
    by (right; reflexivity).
  split; [split; [reflexivity | split; [reflexivity | exact Hname]]|].
  pose proof (rejected_submission_leaves_store true 1 2 missing_name_submission
    one_course_world eq_refl eq_refl (or_intror (or_introl Hname))) as H.
  destruct H as (_ & _ & H & _). exact H.
Defined.

(** What POST /add_courses does when the three fields pass validation and
    the store loads as a collection. *)
Lemma add_courses_accepted (req : request) (w : world) (cs : list pyval)
    (code name instructor : string) :
  method req = "POST" →
  present (form_get (form req) "course-code") code →
  present (form_get (form req) "courseName") name →
  present (form_get (form req) "instructor") instructor →
  fst (load_courses w) = Ok (PList cs) →
  add_courses req w =
  (Ok (Some (mkResponse 302 (Redirect "/catalog"))),
   set_flashes (flashes w ++ [("success", "Course added successfully!")])
     (set_log
        (log w ++
         [mkLog INFO "Course added successfully"
            {[ "course_code" := PStr code;
               "course_name" := PStr name;
               "instructor" := PStr instructor;
               "route" := PStr "/add_courses";
               "method" := PStr (method req);
               "user_ip" := opt_str (remote_addr req) ]}])
        (write_course_file
           (Some (Encodes (PList (cs ++ [course_record code name instructor]))))
           (set_spans
              (spans w ++
               [mkSpan "Handling form submissions"
                  {[ "route" := PStr "/add_courses";
                     "user.ip" := opt_str (remote_addr req);
                     "http.method" := PStr (method req) ]} true]) w)))).
Proof.
  intros Hpost [Hc Hc'] [Hn Hn'] [Hi Hi'] Hload.
  rewrite load_courses_result in Hload.
  destruct code as [|c1 code]; [done|].
  destruct name as [|c2 name]; [done|].
  destruct instructor as [|c3 instructor]; [done|].
  destruct w as [f ? ? ? ? ? ? ? ? ? ?]; unfold add_courses; unfold_lib; run.
  rewrite Hpost, Hc, Hn, Hi. run.
  destruct f as [[|v]|]; cbn in Hload; inversion Hload; subst; run; reflexivity.
Qed.

(** C10.  The validation test of a field is Python's [not field]: it
    fires exactly when the field is absent or the empty string, so never
    on a value made of whitespace.  A POST /add_courses whose three fields
    are non-empty, be they whitespace only, lists no missing field,
    redirects with the success notice, and appends the record with the
    three values exactly as sent. *)
Theorem validation_tests_emptiness_only (req : request) (w : world) (cs : list pyval)
    (code name instructor : string) :
  let w' := snd (add_courses req w) in
  method req = "POST" →
  present (form_get (form req) "course-code") code →
  present (form_get (form req) "courseName") name →
  present (form_get (form req) "instructor") instructor →
  fst (load_courses w) = Ok (PList cs) →
  (∀ o, negb (truthy (opt_str o)) = true ↔ absent o) ∧
  (∀ s, whitespace_only s → negb (truthy (opt_str (Some s))) = false) ∧
  missing_fields (form_get (form req) "course-code") (form_get (form req) "courseName")
    (form_get (form req) "instructor") = [] ∧
  fst (add_courses req w) = Ok (Some (mkResponse 302 (Redirect "/catalog"))) ∧
  course_file w' = Some (Encodes (PList (cs ++
    [PDict [("code", PStr code); ("name", PStr name); ("instructor", PStr instructor)]]))) ∧
  flashes w' = flashes w ++ [("success", "Course added successfully!")].
Proof.
  intros w' Hpost Hc Hn Hi Hload. subst w'.
  rewrite (add_courses_accepted req w cs code name instructor Hpost Hc Hn Hi Hload).
  destruct Hc as [-> Hc], Hn as [-> Hn], Hi as [-> Hi].
  split; [exact not_field_absent|]. split.
  { intros [|c s] [Hs _]; [done|reflexivity]. }
  split.
  { destruct code, name, instructor; done. }
  by destruct w.
Qed.

Lemma validation_tests_emptiness_only_witness :
  (whitespace_only " " ∧ whitespace_only "  " ∧
   fst (load_courses one_course_world) = Ok (PList [cs203])) ∧
  course_file (snd (add_courses whitespace_submission one_course_world)) =
    Some (Encodes (PList [cs203; course_record " " "  " "Dr. X"])).
Proof.
  split; [repeat split; discriminate || reflexivity|].
  assert (present (form_get (form whitespace_submission) "course-code") " ") as Hcode
    by (split; [reflexivity|discriminate]).
  assert (present (form_get (form whitespace_submission) "courseName") "  ") as Hname
    by (split; [reflexivity|discriminate]).
  assert (present (form_get (form whitespace_submission) "instructor") "Dr. X") as Hinstructor
    by (split; [reflexivity|discriminate]).
  pose proof (validation_tests_emptiness_only whitespace_submission one_course_world
    [cs203] " " "  " "Dr. X" eq_refl Hcode Hname Hinstructor eq_refl) as H.
  destruct H as (_ & _ & _ & _ & H & _). exact H.
Defined.

(** ** Looking a course up *)

Lemma eq_str_true (v : pyval) (code : string) : eq_str v code = true ↔ v = PStr code.
Proof.
  destruct v; cbn; try (split; intros; discriminate).
  rewrite String.eqb_eq. split; [by intros ->|by intros [= ->]].
Qed.

Lemma getitem_code (course v : pyval) :
  code_of course = Some v → getitem course "code" = Ok v ∧ truthy course = true.
Proof.
  destruct course as [| | | | | |items]; cbn; try (intros; discriminate).
  intros H. rewrite H. split; [reflexivity|]. destruct items; [discriminate|reflexivity].
Qed.

Lemma next_match_first (pre post : list pyval) (course : pyval) (code : string) :
  Forall (other_code code) pre → has_code code course →
  next_match (pre ++ course :: post) code = Ok course.
Proof.
  intros Hpre Hcourse. induction Hpre as [|c pre (v & Hv & Hne) _ IH]; cbn.
  - destruct (getitem_code _ _ Hcourse) as [-> _]. cbn. by rewrite String.eqb_refl.
  - destruct (getitem_code _ _ Hv) as [-> _].
    destruct (eq_str v code) eqn:E; [|exact IH].
    by apply eq_str_true in E.
Qed.

Lemma next_match_none (cs : list pyval) (code : string) :
  Forall (other_code code) cs → next_match cs code = Ok PNone.
Proof.
  induction 1 as [|c cs (v & Hv & Hne) _ IH]; cbn; [reflexivity|].
  destruct (getitem_code _ _ Hv) as [-> _].
  destruct (eq_str v code) eqn:E; [|exact IH].
  by apply eq_str_true in E.
Qed.

(** The two ways GET /course/<code> ends over a collection the scan gets
    through. *)
Lemma course_details_found (req : request) (code : string) (w : world)
    (cs : list pyval) (course : pyval) :
  fst (load_courses w) = Ok (PList cs) →
  next_match cs code = Ok course → truthy course = true →
  fst (course_details req code w) =
  Ok (Some (mkResponse 200 (Rendered "course_details.html" [("course", course)]))).
Proof.
  rewrite load_courses_result. intros Hload Hnext Htruthy.
  destruct w as [[[|v]|] ? ? ? ? ? ? ? ? ? ?]; cbn in Hload; inversion Hload; subst.
  - unfold course_details, find_course; unfold_lib; run.
    rewrite Hnext; run. rewrite Htruthy. reflexivity.
  - cbn in Hnext. inversion Hnext; subst. discriminate.
Qed.

Lemma course_details_not_found (req : request) (code : string) (w : world)
    (cs : list pyval) :
  fst (load_courses w) = Ok (PList cs) →
  next_match cs code = Ok PNone →
  let w' := snd (course_details req code w) in
  fst (course_details req code w) = Ok (Some (mkResponse 302 (Redirect "/catalog"))) ∧
  flashes w' = flashes w ++ [("error", "No course found with code '" +:+ code +:+ "'.")] ∧
  ∃ line, last (log w') = Some line ∧ log_level line = ERROR ∧
    log_message line = "No course found with code: " +:+ code.
Proof.
  rewrite load_courses_result. intros Hload Hnext.
  destruct w as [[[|v]|] ? ? ? ? ? ? ? ? ? ?]; cbn in Hload; inversion Hload; subst;
    unfold course_details, find_course; unfold_lib; run;
    rewrite ?Hnext; run;
    (split; [reflexivity|]; split; [reflexivity|]; eexists; rewrite last_snoc; done).
Qed.

(** C6.  Over a store that loads as the collection [cs], GET
    /course/<code> scans the records in stored order.  It renders the first
    record whose code is exactly [code], whatever follows it; it takes the
    not-found exit (error line, flash, redirect to the catalog) when every
    record has a different code.  Saving another record with a code already
    stored does not raise, and the lookup still renders the earlier one. *)
Theorem course_details_first_match (req : request) (code : string) (w : world)
    (cs : list pyval) :
  fst (load_courses w) = Ok (PList cs) →
  (∀ pre course post,
     cs = pre ++ course :: post →
     Forall (other_code code) pre → has_code code course →
     fst (course_details req code w) =
     Ok (Some (mkResponse 200 (Rendered "course_details.html" [("course", course)])))) ∧
  (Forall (other_code code) cs →
     let w' := snd (course_details req code w) in
     fst (course_details req code w) = Ok (Some (mkResponse 302 (Redirect "/catalog"))) ∧
     flashes w' = flashes w ++ [("error", "No course found with code '" +:+ code +:+ "'.")] ∧
     ∃ line, last (log w') = Some line ∧ log_level line = ERROR ∧
       log_message line = "No course found with code: " +:+ code) ∧
  (∀ pre course post duplicate,
     cs = pre ++ course :: post →
     Forall (other_code code) pre → has_code code course → has_code code duplicate →
     let w' := snd (save_courses duplicate w) in
     fst (save_courses duplicate w) = Ok tt ∧
     fst (load_courses w') = Ok (PList (cs ++ [duplicate])) ∧
     fst (course_details req code w') =
     Ok (Some (mkResponse 200 (Rendered "course_details.html" [("course", course)])))).
Proof.
  intros Hload. split; [|split].
  - intros pre course post -> Hpre Hcourse.
    apply (course_details_found req code w _ course Hload).
    + by apply next_match_first.
    + by destruct (getitem_code _ _ Hcourse).
  - intros Hnone. apply (course_details_not_found req code w cs Hload).
    by apply next_match_none.
  - intros pre course post duplicate -> Hpre Hcourse Hdup w'. subst w'.
    rewrite (save_courses_run duplicate _ w Hload).
    assert (fst (load_courses (write_course_file
              (Some (Encodes (PList ((pre ++ course :: post) ++ [duplicate])))) w))
            = Ok (PList ((pre ++ course :: post) ++ [duplicate]))) as Hload'.
    { by rewrite load_courses_result. }
    cbn [fst snd]. split; [reflexivity|]. split; [exact Hload'|].
    apply (course_details_found req code _ ((pre ++ course :: post) ++ [duplicate]) course).
    + exact Hload'.
    + rewrite <- app_assoc. cbn. by apply next_match_first.
    + by destruct (getitem_code _ _ Hcourse).
Qed.

Lemma course_details_first_match_witness :
  fst (load_courses two_course_world) = Ok (PList [cs101; cs203]) ∧
  fst (course_details (get_course "CS203") "CS203"
         (snd (save_courses cs203_again two_course_world))) =
  Ok (Some (mkResponse 200 (Rendered "course_details.html" [("course", cs203)]))).
Proof.
  split; [reflexivity|].
  assert (Forall (other_code "CS203") [cs101]) as Hpre.
  { repeat constructor. exists (PStr "CS101"). split; [reflexivity|discriminate]. }
  pose proof (course_details_first_match (get_course "CS203") "CS203" two_course_world
    [cs101; cs203] eq_refl) as H.
  destruct H as (_ & _ & H).
  destruct (H [cs101] cs203 [] cs203_again eq_refl Hpre eq_refl eq_refl) as (_ & _ & Hfound).
  exact Hfound.
Defined.

(** ** The catalog page and its span *)

(** C7, on the code.  GET /catalog lists the stored courses, but the two
    [set_attribute] calls for "course.count" and "course.names" come after
    the [with] block of the view's span, so they reach a span that has
    ended and are ignored: the one span the view adds is ended and carries
    neither attribute, and no earlier span is touched. *)
Theorem course_catalog_drops_course_attributes (req : request) (w : world) :
  let w' := snd (course_catalog req w) in
  ∃ sp, spans w' = spans w ++ [sp] ∧
    span_name sp = "Rendering Course Catalog" ∧
    span_ended sp = true ∧
    span_attributes sp !! "course.count" = None ∧
    span_attributes sp !! "course.names" = None.
Proof.
  assert (∀ a b c : pyval,
    let m : gmap string pyval :=
      <["route" := a]> (<["user.ip" := b]> (<["http.method" := c]> ∅)) in
    m !! "course.count" = None ∧ m !! "course.names" = None) as Hnone.
  { intros a b c m. subst m. by simplify_map_eq. }
  destruct w as [[[|v]|] ? ? ? ? ? ? ? ? ? ?]; unfold course_catalog; unfold_lib; run.
  - eexists. repeat split; apply Hnone.
  - destruct (py_len v); run; [destruct (course_names v); run|];
      eexists; repeat split; apply Hnone.
  - eexists. repeat split; apply Hnone.
Qed.

(** The same on a whole request: GET /catalog over a file holding one
    course answers with that course, and neither the request's span nor the
    view's carries the count or the names. *)
Lemma get_catalog_spans :
  let '(r, w') := wsgi_app true 1 2 get_catalog one_course_world in
  r = Ok (mkResponse 200 (Rendered "course_catalog.html" [("courses", PList [cs203])])) ∧
  map (λ s, (span_name s, span_ended s,
             span_attributes s !! "course.count", span_attributes s !! "course.names"))
    (spans w') =
  [("GET /catalog", true, None, None); ("Rendering Course Catalog", true, None, None)].
Proof. vm_compute. split; reflexivity. Qed.

(** * Further properties of the code *)

(** ** The store when it does not hold a collection *)

(** [save_courses] over a file that is not JSON, or is JSON but not an
    array, raises before the file is opened for writing: the decoder's
    error in the first case, the missing [append] method in the second.
    The world is left exactly as it was. *)
Theorem save_courses_fails_without_writing (data : pyval) (w : world) :
  (∀ cs, fst (load_courses w) ≠ Ok (PList cs)) →
  snd (save_courses data w) = w ∧
  (course_file w = Some Undecodable → fst (save_courses data w) = Raise JSONDecodeError) ∧
  (∀ v, course_file w = Some (Encodes v) →
        fst (save_courses data w) = Raise (AttributeError "append")).
Proof.
  rewrite load_courses_result.
  destruct w as [[[|v]|] ? ? ? ? ? ? ? ? ? ?]; cbn; intros Hnot.
  - split; [reflexivity|]. split; [reflexivity|]. intros v [=].
  - destruct v; try (by destruct (Hnot l)).
    all: split; [reflexivity|]; split; [intros [=]|reflexivity].
  - by destruct (Hnot []).
Qed.

Lemma save_courses_fails_without_writing_witness :
  (∀ cs, fst (load_courses object_world) ≠ Ok (PList cs)) ∧
  snd (save_courses cs101 object_world) = object_world.
Proof.
  assert (∀ cs, fst (load_courses object_world) ≠ Ok (PList cs)) as Hnot
    by (intros cs; discriminate).
  split; [exact Hnot|].
  pose proof (save_courses_fails_without_writing cs101 object_world Hnot) as H.
  destruct H as (H & _). exact H.
Defined.

(** ** The list of missing fields *)

(** The list is always in the order of the form, Course Code, Course Name,
    Instructor; it has one entry per absent or empty field; and it is empty
    exactly when the test that guards the error branch of [add_courses] is
    false, so the branch never reports an empty list. *)
Theorem missing_fields_in_form_order (course_code course_name instructor : option string) :
  let missing := missing_fields course_code course_name instructor in
  let guard := negb (truthy (opt_str course_code)) || negb (truthy (opt_str course_name))
               || negb (truthy (opt_str instructor)) in
  sublist missing ["Course Code"; "Course Name"; "Instructor"] ∧
  (missing = [] ↔ guard = false) ∧
  (guard = true ↔ absent course_code ∨ absent course_name ∨ absent instructor) ∧
  (absent course_code → absent course_name → absent instructor →
   "Error: Missing required fields: " +:+ join ", " missing =
   "Error: Missing required fields: Course Code, Course Name, Instructor").
Proof.
  cbv zeta. rewrite <- !not_field_absent. unfold missing_fields.
  destruct (negb (truthy (opt_str course_code))),
    (negb (truthy (opt_str course_name))),
    (negb (truthy (opt_str instructor))); cbn.
  all: split; [repeat (first [apply sublist_nil | apply sublist_skip | apply sublist_cons])|].
  all: split; [split; intros; done|].
  all: split; [split; intros; try done; tauto|].
  all: intros; done.
Qed.

(** ** The spans of the views *)






(** ** What the catalog page returns *)

Lemma course_catalog_result (req : request) (w : world) :
  fst (course_catalog req w) =
  match fst (load_courses w) with
  | Raise e => Raise e
  | Ok courses =>
      match py_len courses with
      | Raise e => Raise e
      | Ok _ =>
          match course_names courses with
          | Raise e => Raise e
          | Ok _ =>
              Ok (Some (mkResponse 200
                          (Rendered "course_catalog.html" [("courses", courses)])))
          end
      end
  end.
Proof.
  rewrite load_courses_result.
  destruct w as [[[|v]|] ? ? ? ? ? ? ? ? ? ?]; unfold course_catalog; unfold_lib; run;
    try reflexivity.
  destruct (py_len v); run; [destruct (course_names v); run|]; reflexivity.
Qed.

Lemma comprehension_names (cs : list pyval) :
  Forall (λ c, is_Some (name_of c)) cs → ∃ names, comprehension "name" cs = Ok names.
Proof.
  induction 1 as [|c cs [v Hv] _ [names IH]]; cbn; [by eexists|].
  destruct c; try discriminate. cbn in Hv |- *. rewrite Hv, IH. by eexists.
Qed.

Lemma comprehension_raises (pre post : list pyval) (c : pyval) :
  Forall (λ c, is_Some (name_of c)) pre → name_of c = None →
  ∃ e, comprehension "name" (pre ++ c :: post) = Raise e ∧
       ((∃ items, c = PDict items) → e = KeyError "name").
Proof.
  intros Hpre Hc. induction Hpre as [|x pre [v Hv] _ (e & IH & He)]; cbn.
  - destruct c; cbn in Hc |- *; try (eexists; split; [reflexivity|intros [? [=]]]).
    rewrite Hc. eexists; split; [reflexivity|done].
  - destruct x; try discriminate. cbn in Hv |- *. rewrite Hv, IH. by exists e.
Qed.

(** GET /catalog over a store that loads as the collection [cs]: when
    every record is a dict with a "name" entry the page is rendered with
    the collection as loaded (so an absent file gives the empty page); when
    some record has none, the view raises at the first such record --
    [KeyError] if it is a dict -- although the names it was collecting are
    only meant for a span attribute. *)
Theorem course_catalog_page (req : request) (w : world) (cs : list pyval) :
  fst (load_courses w) = Ok (PList cs) →
  (Forall (λ c, is_Some (name_of c)) cs →
   fst (course_catalog req w) =
   Ok (Some (mkResponse 200 (Rendered "course_catalog.html" [("courses", PList cs)])))) ∧
  (∀ pre c post,
     cs = pre ++ c :: post →
     Forall (λ c, is_Some (name_of c)) pre → name_of c = None →
     ∃ e, fst (course_catalog req w) = Raise e ∧
          ((∃ items, c = PDict items) → e = KeyError "name")) ∧
  (course_file w = None →
   fst (course_catalog req w) =
   Ok (Some (mkResponse 200 (Rendered "course_catalog.html" [("courses", PList [])])))).
Proof.
  intros Hload. rewrite course_catalog_result, Hload. cbn.
  split; [|split].
  - intros Hnames. unfold course_names. cbn.
    destruct (comprehension_names cs Hnames) as [names ->]. reflexivity.
  - intros pre c post -> Hpre Hc. unfold course_names. cbn.
    destruct (comprehension_raises pre post c Hpre Hc) as (e & -> & He). by exists e.
  - intros Hnone. rewrite load_courses_result, Hnone in Hload. by inversion Hload.
Qed.

Lemma course_catalog_page_witness :
  fst (load_courses nameless_world) =
    Ok (PList [cs203; PDict [("code", PStr "CS999")]]) ∧
  ∃ e, fst (course_catalog get_catalog nameless_world) = Raise e ∧
       ((∃ items, PDict [("code", PStr "CS999")] = PDict items) → e = KeyError "name").
Proof.
  split; [reflexivity|].
  assert (Forall (λ c, is_Some (name_of c)) [cs203]) as Hpre.
  { repeat constructor. by eexists. }
  pose proof (course_catalog_page get_catalog nameless_world
    [cs203; PDict [("code", PStr "CS999")]] eq_refl) as H.
  destruct H as (_ & H & _).
  exact (H [cs203] (PDict [("code", PStr "CS999")]) [] eq_refl Hpre eq_refl).
Defined.

(** ** A record the lookup cannot read *)

Lemma next_match_raises (pre post : list pyval) (c : pyval) (code : string) :
  Forall (other_code code) pre → code_of c = None →
  ∃ e, next_match (pre ++ c :: post) code = Raise e ∧
       ((∃ items, c = PDict items) → e = KeyError "code").
Proof.
  intros Hpre Hc. induction Hpre as [|x pre (v & Hv & Hne) _ (e & IH & He)]; cbn.
  - destruct c; cbn in Hc |- *; try (eexists; split; [reflexivity|intros [? [=]]]).
    rewrite Hc. eexists; split; [reflexivity|done].
  - destruct (getitem_code _ _ Hv) as [-> _].
    destruct (eq_str v code) eqn:E; [by apply eq_str_true in E|].
    by exists e.
Qed.

Lemma course_details_raises (req : request) (code : string) (w : world)
    (cs : list pyval) (e : exn) :
  fst (load_courses w) = Ok (PList cs) →
  next_match cs code = Raise e →
  fst (course_details req code w) = Raise e.
Proof.
  rewrite load_courses_result. intros Hload Hnext.
  destruct w as [[[|v]|] ? ? ? ? ? ? ? ? ? ?]; cbn in Hload; inversion Hload; subst.
  - unfold course_details, find_course; unfold_lib; run. rewrite Hnext. reflexivity.
  - discriminate.
Qed.

(** GET /course/<code> reads the records only up to the first match: a
    stored record that is not a dict, or is a dict without "code", makes
    the view raise ([KeyError] for a dict) when it comes before any record
    with that code, even if a later record has the code; the course file is
    not written. *)
Theorem course_details_unreadable_record (req : request) (code : string) (w : world)
    (pre post : list pyval) (c : pyval) :
  fst (load_courses w) = Ok (PList (pre ++ c :: post)) →
  Forall (other_code code) pre →
  code_of c = None →
  (∃ e, fst (course_details req code w) = Raise e ∧
        ((∃ items, c = PDict items) → e = KeyError "code")) ∧
  file_unchanged w (snd (course_details req code w)).
Proof.
  intros Hload Hpre Hc. split; [|apply course_details_file].
  destruct (next_match_raises pre post c code Hpre Hc) as (e & Hnext & He).
  exists e. split; [|exact He].
  by apply (course_details_raises req code w _ e Hload).
Qed.

Lemma course_details_unreadable_record_witness :
  (fst (load_courses codeless_world) =
     Ok (PList ([] ++ PDict [("name", PStr "Orphan")] :: [cs203])) ∧
   code_of (PDict [("name", PStr "Orphan")]) = None) ∧
  file_unchanged codeless_world
    (snd (course_details (get_course "CS203") "CS203" codeless_world)).
Proof.
  split; [split; reflexivity|].
  pose proof (course_details_unreadable_record (get_course "CS203") "CS203" codeless_world
    [] [cs203] (PDict [("name", PStr "Orphan")]) eq_refl (Forall_nil_2 _) eq_refl) as H.
  destruct H as (_ & H). exact H.
Defined.

(** ** Submissions and what follows them *)

Lemma load_after_accepted (req : request) (w : world) (cs : list pyval)
    (code name instructor : string) :
  method req = "POST" →
  present (form_get (form req) "course-code") code →
  present (form_get (form req) "courseName") name →
  present (form_get (form req) "instructor") instructor →
  fst (load_courses w) = Ok (PList cs) →
  fst (add_courses req w) = Ok (Some (mkResponse 302 (Redirect "/catalog"))) ∧
  fst (load_courses (snd (add_courses req w))) =
    Ok (PList (cs ++ [course_record code name instructor])).
Proof.
  intros Hpost Hc Hn Hi Hload.
  rewrite (add_courses_accepted req w cs code name instructor Hpost Hc Hn Hi Hload).
  split; [reflexivity|]. rewrite load_courses_result. by destruct w.
Qed.

(** A course accepted by POST /add_courses is what GET /course/<code>
    then shows, provided no stored record already had that code; if one
    had, the page keeps showing the earliest such record and the new one is
    stored but never reached. *)
Theorem submitted_course_is_found (req look : request) (w : world) (cs : list pyval)
    (code name instructor : string) :
  let w' := snd (add_courses req w) in
  method req = "POST" →
  present (form_get (form req) "course-code") code →
  present (form_get (form req) "courseName") name →
  present (form_get (form req) "instructor") instructor →
  fst (load_courses w) = Ok (PList cs) →
  (Forall (other_code code) cs →
   fst (course_details look code w') =
   Ok (Some (mkResponse 200 (Rendered "course_details.html"
               [("course", course_record code name instructor)])))) ∧
  (∀ pre course post,
     cs = pre ++ course :: post →
     Forall (other_code code) pre → has_code code course →
     fst (course_details look code w') =
     Ok (Some (mkResponse 200 (Rendered "course_details.html" [("course", course)])))).
Proof.
  intros w' Hpost Hc Hn Hi Hload. subst w'.
  destruct (load_after_accepted req w cs code name instructor Hpost Hc Hn Hi Hload)
    as [_ Hload'].
  split.
  - intros Hother.
    apply (course_details_found look code _ _ _ Hload'); [|reflexivity].
    by apply next_match_first.
  - intros pre course post -> Hpre Hcourse.
    apply (course_details_found look code _ _ _ Hload').
    + rewrite <- app_assoc. cbn. by apply next_match_first.
    + by destruct (getitem_code _ _ Hcourse).
Qed.

Lemma submitted_course_is_found_witness :
  (fst (load_courses one_course_world) = Ok (PList [cs203]) ∧
   Forall (other_code "CS204") [cs203]) ∧
  fst (course_details (get_course "CS204") "CS204"
         (snd (add_courses new_course_submission one_course_world))) =
  Ok (Some (mkResponse 200 (Rendered "course_details.html"
              [("course", course_record "CS204" "Networks" "Dr. Z")]))).
Proof.
  assert (Forall (other_code "CS204") [cs203]) as Hother.
  { repeat constructor. exists (PStr "CS203"). split; [reflexivity|discriminate]. }
  split; [split; [reflexivity|exact Hother]|].
  assert (present (form_get (form new_course_submission) "course-code") "CS204") as Hc
    by (split; [reflexivity|discriminate]).
  assert (present (form_get (form new_course_submission) "courseName") "Networks") as Hn
    by (split; [reflexivity|discriminate]).
  assert (present (form_get (form new_course_submission) "instructor") "Dr. Z") as Hi
    by (split; [reflexivity|discriminate]).
  pose proof (submitted_course_is_found new_course_submission (get_course "CS204")
    one_course_world [cs203] "CS204" "Networks" "Dr. Z" eq_refl Hc Hn Hi eq_refl) as H.
  destruct H as (H & _). exact (H Hother).
Defined.

(** The store does not enforce unique codes: the same valid submission
    sent twice is accepted twice and stored as two equal records at the end
    of the collection. *)
Theorem duplicate_submission_stored_twice (req : request) (w : world) (cs : list pyval)
    (code name instructor : string) :
  let w1 := snd (add_courses req w) in
  let w2 := snd (add_courses req w1) in
  method req = "POST" →
  present (form_get (form req) "course-code") code →
  present (form_get (form req) "courseName") name →
  present (form_get (form req) "instructor") instructor →
  fst (load_courses w) = Ok (PList cs) →
  fst (add_courses req w) = Ok (Some (mkResponse 302 (Redirect "/catalog"))) ∧
  fst (add_courses req w1) = Ok (Some (mkResponse 302 (Redirect "/catalog"))) ∧
  fst (load_courses w2) =
    Ok (PList (cs ++ [course_record code name instructor;
                      course_record code name instructor])) ∧
  file_writes w2 = S (S (file_writes w)).
Proof.
  intros w1 w2 Hpost Hc Hn Hi Hload. subst w1 w2.
  destruct (load_after_accepted req w cs code name instructor Hpost Hc Hn Hi Hload)
    as [Hok Hload1].
  destruct (load_after_accepted req _ _ code name instructor Hpost Hc Hn Hi Hload1)
    as [Hok2 Hload2].
  split; [exact Hok|]. split; [exact Hok2|]. split.
  - rewrite Hload2, <- app_assoc. reflexivity.
  - rewrite (add_courses_accepted req _ _ code name instructor Hpost Hc Hn Hi Hload1).
    rewrite (add_courses_accepted req w cs code name instructor Hpost Hc Hn Hi Hload).
    by destruct w.
Qed.

Lemma duplicate_submission_stored_twice_witness :
  fst (load_courses one_course_world) = Ok (PList [cs203]) ∧
  file_writes (snd (add_courses new_course_submission
                      (snd (add_courses new_course_submission one_course_world)))) =
  S (S (file_writes one_course_world)).
Proof.
  split; [reflexivity|].
  assert (present (form_get (form new_course_submission) "course-code") "CS204") as Hc
    by (split; [reflexivity|discriminate]).
  assert (present (form_get (form new_course_submission) "courseName") "Networks") as Hn
    by (split; [reflexivity|discriminate]).
  assert (present (form_get (form new_course_submission) "instructor") "Dr. Z") as Hi
    by (split; [reflexivity|discriminate]).
  pose proof (duplicate_submission_stored_twice new_course_submission one_course_world
    [cs203] "CS204" "Networks" "Dr. Z" eq_refl Hc Hn Hi eq_refl) as H.
  destruct H as (_ & _ & _ & H). exact H.
Defined.

(** After an accepted submission the three [set_attribute] calls of lines
    195-197 reach a span that has already ended: the view's span carries
    no "course.code", "course.name" or "course.instructor", while the
    success line of the log does carry the three values. *)
Theorem accepted_submission_attributes_dropped (req : request) (w : world)
    (cs : list pyval) (code name instructor : string) :
  let w' := snd (add_courses req w) in
  method req = "POST" →
  present (form_get (form req) "course-code") code →
  present (form_get (form req) "courseName") name →
  present (form_get (form req) "instructor") instructor →
  fst (load_courses w) = Ok (PList cs) →
  (∃ sp, spans w' = spans w ++ [sp] ∧ span_ended sp = true ∧
     span_attributes sp !! "course.code" = None ∧
     span_attributes sp !! "course.name" = None ∧
     span_attributes sp !! "course.instructor" = None) ∧
  (∃ line, log w' = log w ++ [line] ∧
     log_message line = "Course added successfully" ∧
     log_extra line !! "course_code" = Some (PStr code) ∧
     log_extra line !! "course_name" = Some (PStr name) ∧
     log_extra line !! "instructor" = Some (PStr instructor)).
Proof.
  intros w' Hpost Hc Hn Hi Hload. subst w'.
  rewrite (add_courses_accepted req w cs code name instructor Hpost Hc Hn Hi Hload).
  destruct w. cbn. split.
  - eexists. split; [reflexivity|]. split; [reflexivity|]. by simplify_map_eq.
  - eexists. split; [reflexivity|]. split; [reflexivity|]. by simplify_map_eq.
Qed.

Lemma accepted_submission_attributes_dropped_witness :
  fst (load_courses one_course_world) = Ok (PList [cs203]) ∧
  ∃ sp, spans (snd (add_courses new_course_submission one_course_world)) =
          spans one_course_world ++ [sp] ∧ span_ended sp = true ∧
    span_attributes sp !! "course.code" = None ∧
    span_attributes sp !! "course.name" = None ∧
    span_attributes sp !! "course.instructor" = None.
Proof.
  split; [reflexivity|].
  assert (present (form_get (form new_course_submission) "course-code") "CS204") as Hc
    by (split; [reflexivity|discriminate]).
  assert (present (form_get (form new_course_submission) "courseName") "Networks") as Hn
    by (split; [reflexivity|discriminate]).
  assert (present (form_get (form new_course_submission) "instructor") "Dr. Z") as Hi
    by (split; [reflexivity|discriminate]).
  pose proof (accepted_submission_attributes_dropped new_course_submission
    one_course_world [cs203] "CS204" "Networks" "Dr. Z" eq_refl Hc Hn Hi eq_refl) as H.
  destruct H as (H & _). exact H.
Defined.

(** ** Invariants over a run of requests *)

(** What [add_courses] writes, when it writes: the loaded collection
    followed by a record of three non-empty strings. *)
Lemma add_courses_writes_record (req : request) (w : world) :
  file_unchanged w (snd (add_courses req w)) ∨
  ∃ cs code name instructor,
    fst (load_courses w) = Ok (PList cs) ∧
    code ≠ "" ∧ name ≠ "" ∧ instructor ≠ "" ∧
    course_file (snd (add_courses req w)) =
      Some (Encodes (PList (cs ++ [course_record code name instructor]))).
Proof.
  destruct (add_courses_file req w) as [H|[Hpost (cs & c & Hload & _)]]; [by left|].
  destruct (negb (truthy (opt_str (form_get (form req) "course-code")))) eqn:E1.
  { left. apply not_field_absent in E1.
    rewrite (add_courses_rejected req w Hpost (or_introl E1)). by destruct w. }
  destruct (negb (truthy (opt_str (form_get (form req) "courseName")))) eqn:E2.
  { left. apply not_field_absent in E2.
    rewrite (add_courses_rejected req w Hpost (or_intror (or_introl E2))). by destruct w. }
  destruct (negb (truthy (opt_str (form_get (form req) "instructor")))) eqn:E3.
  { left. apply not_field_absent in E3.
    rewrite (add_courses_rejected req w Hpost (or_intror (or_intror E3))). by destruct w. }
  apply not_field_present in E1 as (code & Hc & Hc').
  apply not_field_present in E2 as (name & Hn & Hn').
  apply not_field_present in E3 as (instructor & Hi & Hi').
  right. exists cs, code, name, instructor. repeat split; try done.
  rewrite (add_courses_accepted req w cs code name instructor Hpost
             (conj Hc Hc') (conj Hn Hn') (conj Hi Hi') Hload).
  by destruct w.
Qed.

Lemma dispatch_request_writes_record (req : request) (w : world) :
  file_unchanged w (snd (dispatch_request req w)) ∨
  ∃ cs code name instructor,
    fst (load_courses w) = Ok (PList cs) ∧
    code ≠ "" ∧ name ≠ "" ∧ instructor ≠ "" ∧
    course_file (snd (dispatch_request req w)) =
      Some (Encodes (PList (cs ++ [course_record code name instructor]))).
Proof.
  unfold dispatch_request.
  destruct (matched req); try (left; split; reflexivity);
    (destruct (String.eqb (method req) "OPTIONS"); [left; split; reflexivity|]).
  - left. apply index_file.
  - left. apply course_catalog_file.
  - apply add_courses_writes_record.
  - left. apply course_details_file.
Qed.

Lemma wsgi_app_keeps_well_formed (propagate : bool) (t0 t1 : Q) (req : request)
    (w : world) :
  well_formed_store w → well_formed_store (snd (wsgi_app propagate t0 t1 req w)).
Proof.
  intros (cs & Hload & Hcs).
  destruct (wsgi_app_file_from_view propagate t0 t1 req w) as [[Hf _] [Hf' _]].
  set (w1 := snd (before_request t0 req _)) in *.
  pose proof (load_courses_same_file w w1 Hf) as Hload1.
  destruct (dispatch_request_writes_record req w1)
    as [[Hd _]|(cs' & code & name & instructor & Hl & Hc & Hn & Hi & Hfile)].
  - exists cs. split; [|exact Hcs].
    rewrite <- Hload. apply load_courses_same_file. congruence.
  - assert (cs' = cs) as -> by congruence.
    exists (cs ++ [course_record code name instructor]). split.
    + rewrite load_courses_result, Hf', Hfile. reflexivity.
    + apply Forall_app. split; [exact Hcs|]. repeat constructor.
      by exists code, name, instructor.
Qed.

(** However many requests are served, and whatever they are, a store that
    loads as a collection of records with three non-empty string fields
    still does afterwards: nothing but the validated submission writes the
    file. *)
Theorem store_stays_well_formed (propagate : bool) (arrivals : list (request * Q * Q))
    (w : world) :
  well_formed_store w → well_formed_store (serve propagate arrivals w).
Proof.
  revert w. induction arrivals as [|[[req t0] t1] rest IH]; intros w Hw; cbn.
  - exact Hw.
  - apply IH. by apply wsgi_app_keeps_well_formed.
Qed.

Lemma store_stays_well_formed_witness :
  well_formed_store one_course_world ∧
  well_formed_store
    (serve true [(whitespace_submission, 1%Q, 2%Q); (missing_code_submission, 3%Q, 4%Q);
                 (get_catalog, 5%Q, 6%Q)] one_course_world).
Proof.
  assert (well_formed_store one_course_world) as Hw.
  { exists [cs203]. split; [reflexivity|]. repeat constructor.
    exists "CS203", "Systems", "Dr. Y". repeat split; discriminate. }
  split; [exact Hw|].
  exact (store_stays_well_formed true
    [(whitespace_submission, 1%Q, 2%Q); (missing_code_submission, 3%Q, 4%Q);
     (get_catalog, 5%Q, 6%Q)] one_course_world Hw).
Defined.

(** One request when exceptions do not propagate: Flask always answers,
    and the hooks have closed their span and counted the request. *)
Lemma wsgi_app_answers (t0 t1 : Q) (req : request) (w : world) :
  let w' := snd (wsgi_app false t0 t1 req w) in
  ∃ resp sp vs lg,
    fst (wsgi_app false t0 t1 req w) = Ok resp ∧
    spans w' = spans w ++ sp :: vs ∧ Forall ended (sp :: vs) ∧
    route_request_counter w' = route_request_counter w ++ [(1%Z, metric_attributes req)] ∧
    route_processing_time w' =
      route_processing_time w ++ histogram_sample req ((t1 - t0) * 1000) ∧
    log w' = log w ++ lg ++ [request_line req (status_code resp) ((t1 - t0) * 1000)] ∧
    Forall (λ r, ¬ request_processed r) lg.
Proof.
  intros w'. subst w'.
  pose proof (wsgi_app_cases false t0 t1 req w) as Hcases.
  pose proof (view_exit t0 req w) as Hexit.
  cbv zeta in Hcases, Hexit.
  set (w2 := snd (dispatch_request req _)) in *.
  destruct Hexit as (vs & lg & Hspans & Hended & Hlog & Hnot & Ht & Hr & Hi & Hc & Hp & _).
  destruct Hcases as [(resp & -> & Hok)|(Hfalse & _)]; [|discriminate].
  rewrite (after_request_run t0 t1 req resp w2 _ _ Ht Hr Hi eq_refl) in Hok |- *.
  destruct w2. cbn -[histogram_sample Qmult Qminus] in *. subst.
  eexists resp, _, vs, lg. repeat split.
  - rewrite insert_app_r_alt by lia. rewrite Nat.sub_diag. reflexivity.
  - constructor; [reflexivity|done].
  - by rewrite <- app_assoc.
  - done.
Qed.

Lemma histogram_sample_length (req : request) (t0 t1 : Q) :
  length (histogram_sample req ((t1 - t0) * 1000)) =
  length (List.filter clock_forward [(req, t0, t1)]).
Proof.
  unfold histogram_sample, clock_forward. cbn -[Qmult Qminus].
  destruct (Qlt_le_dec t1 t0) as [Hlt|Hle].
  - rewrite (elapsed_dropped t0 t1 Hlt).
    destruct (Qle_bool t0 t1) eqn:E; [|reflexivity].
    apply Qle_bool_iff in E. by destruct (Qlt_not_le _ _ Hlt).
  - rewrite (elapsed_recorded t0 t1 Hle).
    by rewrite (proj2 (Qle_bool_iff t0 t1) Hle).
Qed.

Lemma filter_not_request_line (lg : list log_record) :
  Forall (λ r, ¬ request_processed r) lg → List.filter is_request_line lg = [].
Proof.
  induction 1 as [|r lg Hr _ IH]; cbn; [reflexivity|].
  unfold is_request_line at 1. destruct (String.eqb_spec (log_message r) "Request processed").
  - by destruct Hr.
  - exact IH.
Qed.

(** Served without propagating exceptions, a run of [n] requests leaves
    every span that existed as it was and every span started during the
    run ended, and adds exactly [n] samples to the request counter and [n]
    "Request processed" lines to the log -- one of each per request,
    whatever the routes and whether the views returned or raised.  The
    histogram gets one sample for each request whose second clock reading
    is not before its first; a negative elapsed time is dropped. *)
Theorem serve_counts_every_request (arrivals : list (request * Q * Q)) (w : world) :
  let w' := serve false arrivals w in
  (∃ started, spans w' = spans w ++ started ∧ Forall ended started) ∧
  length (route_request_counter w') =
    (length (route_request_counter w) + length arrivals)%nat ∧
  length (route_processing_time w') =
    (length (route_processing_time w) + length (List.filter clock_forward arrivals))%nat ∧
  length (List.filter is_request_line (log w')) =
    (length (List.filter is_request_line (log w)) + length arrivals)%nat.
Proof.
  cbv zeta. revert w. induction arrivals as [|[[req t0] t1] rest IH]; intros w.
  - cbn. split; [exists []; by rewrite app_nil_r|]. repeat split; lia.
  - change (serve false ((req, t0, t1) :: rest) w)
      with (serve false rest (snd (wsgi_app false t0 t1 req w))).
    change ((req, t0, t1) :: rest) with ([(req, t0, t1)] ++ rest).
    destruct (wsgi_app_answers t0 t1 req w)
      as (resp & sp & vs & lg & _ & Hspans & Hended & Hc & Hp & Hlog & Hnot).
    destruct (IH (snd (wsgi_app false t0 t1 req w)))
      as ((started & I1 & I1') & I2 & I3 & I4).
    rewrite I2, I3, I4, Hc, Hp, Hlog, I1, Hspans.
    rewrite !List.filter_app, !length_app.
    rewrite (filter_not_request_line lg Hnot), (histogram_sample_length req t0 t1).
    split.
    + exists ((sp :: vs) ++ started). split; [by rewrite <- app_assoc|].
      apply Forall_app. by split.
    + cbn [length List.filter request_line is_request_line log_message String.eqb]. cbn.
      repeat split; lia.
Qed.

(** ** Whole requests *)

(** The response [after_request] is given, by how the view ended. *)
Lemma wsgi_app_outcome (propagate : bool) (t0 t1 : Q) (req : request) (w : world) :
  let w1 := snd (before_request t0 req (snd (push_request_context w))) in
  let w2 := snd (dispatch_request req w1) in
  wsgi_app propagate t0 t1 req w =
  match fst (dispatch_request req w1) with
  | Ok (Some resp) => after_request t1 req resp w2
  | Raise (HTTPException code) => after_request t1 req (mkResponse code ErrorPage) w2
  | Ok None =>
      if propagate
      then (Raise (TypeError "The view function did not return a valid response"), w2)
      else after_request t1 req (mkResponse 500 ErrorPage) w2
  | Raise e =>
      if propagate then (Raise e, w2)
      else after_request t1 req (mkResponse 500 ErrorPage) w2
  end.
Proof.
  intros w1 w2.
  destruct (view_exit t0 req w) as (vs & lg & _ & _ & _ & _ & Ht & Hr & Hi & _).
  fold w1 in Ht, Hr, Hi. fold w2 in Ht, Hr, Hi.
  assert (∀ resp, ∃ w3, after_request t1 req resp w2 = (Ok resp, w3)) as Hafter.
  { intros resp. eexists. by eapply after_request_run. }
  assert (before_request t0 req (set_request_span None (set_request_start_time None w))
          = (Ok tt, w1)) as Hw1.
  { subst w1. destruct w. reflexivity. }
  unfold wsgi_app, full_dispatch_request, handle_exception, try_except, bind,
    push_request_context.
  rewrite Hw1. clear Ht Hr Hi. subst w2.
  destruct (dispatch_request req w1) as [r w2]. cbn [fst snd] in *.
  unfold finalize_request, try_except, make_response, bind, ret, raise.
  destruct r as [[resp|]|e].
  - destruct (Hafter resp) as [w3 ->]. reflexivity.
  - destruct propagate; [reflexivity|].
    destruct (Hafter (mkResponse 500 ErrorPage)) as [w3 ->]. reflexivity.
  - destruct e; cbn [handle_user_exception]; unfold ret, raise;
      try (destruct propagate;
           [ reflexivity
           | destruct (Hafter (mkResponse 500 ErrorPage)) as [w3 ->]; reflexivity ]).
    destruct (Hafter (mkResponse code ErrorPage)) as [w3 ->]. reflexivity.
Qed.

(** A request whose view returned [resp] after leaving the world [w2]. *)
Lemma wsgi_app_returned (propagate : bool) (t0 t1 : Q) (req : request) (w w2 : world)
    (resp : response) :
  dispatch_request req (snd (before_request t0 req (snd (push_request_context w)))) =
    (Ok (Some resp), w2) →
  wsgi_app propagate t0 t1 req w =
  (Ok resp,
   set_log (log w2 ++ [request_line req (status_code resp) ((t1 - t0) * 1000)])
     (set_spans
        (<[length (spans w) :=
             mkSpan (method req +:+ " " +:+ path req)
               (tagged (status_code resp) (span_attributes (request_span_opened req)))
               true]> (spans w2))
        (set_error_counter
           (error_counter w2 ++
            if (400 <=? status_code resp)%Z then [(1%Z, metric_attributes req)] else [])
           (set_route_processing_time
              (route_processing_time w2 ++ histogram_sample req ((t1 - t0) * 1000))
              (set_route_request_counter
                 (route_request_counter w2 ++ [(1%Z, metric_attributes req)]) w2))))).
Proof.
  intros Hd.
  pose proof (wsgi_app_outcome propagate t0 t1 req w) as Hout.
  pose proof (view_exit t0 req w) as Hexit.
  cbv zeta in Hout, Hexit. rewrite Hd in Hout, Hexit. cbn [fst snd] in Hout, Hexit.
  destruct Hexit as (vs & lg & _ & _ & _ & _ & Ht & Hr & Hi & _).
  rewrite Hout. apply (after_request_run t0 t1 req resp w2 _ _ Ht Hr Hi eq_refl).
Qed.

(** What GET /course/<code> leaves when no record has the code. *)
Lemma course_details_miss_run (req : request) (code : string) (w : world)
    (cs : list pyval) :
  fst (load_courses w) = Ok (PList cs) →
  next_match cs code = Ok PNone →
  course_details req code w =
  (Ok (Some (mkResponse 302 (Redirect "/catalog"))),
   set_flashes (flashes w ++ [("error", "No course found with code '" +:+ code +:+ "'.")])
     (set_log
        (log w ++
         [mkLog INFO ("Successfully rendered Course Details for " +:+ code)
            {[ "course_code" := PStr code;
               "route" := PStr ("/course/" +:+ code);
               "method" := PStr (method req);
               "user_ip" := opt_str (remote_addr req) ]};
          mkLog ERROR ("No course found with code: " +:+ code)
            {[ "course_code" := PStr code;
               "route" := PStr ("/course/" +:+ code);
               "method" := PStr (method req);
               "user_ip" := opt_str (remote_addr req) ]}])
        (set_spans
           (spans w ++
            [mkSpan "Rendering Course Details"
               {[ "course.code" := PStr code;
                  "route" := PStr ("/course/" +:+ code);
                  "user.ip" := opt_str (remote_addr req);
                  "http.method" := PStr (method req) ]} true]) w))).
Proof.
  rewrite load_courses_result. intros Hload Hnext.
  destruct w as [[[|v]|] ? ? ? ? ? ? ? ? ? ?]; cbn in Hload; inversion Hload; subst;
    unfold course_details, find_course; unfold_lib; run;
    rewrite ?Hnext; run; rewrite <- ?app_assoc; reflexivity.
Qed.

(** A lookup that finds nothing is not recorded as an error.  The view's
    [set_attribute("error", True)] reaches its span after the span has
    ended, and its answer is a 302 redirect, below the hook's threshold: in
    the whole request neither the request's span nor the view's carries
    "error", and the error counter gets no sample.  Only the log's error
    line and the flashed notice tell of the miss. *)
Theorem lookup_miss_is_not_counted (propagate : bool) (t0 t1 : Q) (req : request)
    (code : string) (w : world) (cs : list pyval) :
  let w' := snd (wsgi_app propagate t0 t1 req w) in
  matched req = rule_course_details code →
  method req ≠ "OPTIONS" →
  fst (load_courses w) = Ok (PList cs) →
  Forall (other_code code) cs →
  fst (wsgi_app propagate t0 t1 req w) = Ok (mkResponse 302 (Redirect "/catalog")) ∧
  error_counter w' = error_counter w ∧
  (∃ sp vsp, spans w' = spans w ++ [sp; vsp] ∧
     span_attributes sp !! "http.status_code" = Some (PInt 302) ∧
     span_attributes sp !! "error" = None ∧
     span_attributes vsp !! "error" = None) ∧
  flashes w' = flashes w ++ [("error", "No course found with code '" +:+ code +:+ "'.")].
Proof.
  intros w' Hrule Hmethod Hload Hother. subst w'.
  set (w1 := snd (before_request t0 req (snd (push_request_context w)))).
  assert (fst (load_courses w1) = Ok (PList cs)) as Hload1.
  { rewrite <- Hload. apply load_courses_same_file. subst w1. by destruct w. }
  assert (dispatch_request req w1 = course_details req code w1) as Hd.
  { unfold dispatch_request. rewrite Hrule.
    by destruct (String.eqb_spec (method req) "OPTIONS"). }
  rewrite (course_details_miss_run req code w1 cs Hload1 (next_match_none cs code Hother))
    in Hd.
  rewrite (wsgi_app_returned propagate t0 t1 req w _ _ Hd).
  subst w1. destruct w. unfold tagged, request_span_opened. cbn -[Qmult Qminus].
  split; [reflexivity|]. split; [by rewrite app_nil_r|]. split; [|reflexivity].
  rewrite <- app_assoc. cbn. rewrite insert_app_r_alt by lia. rewrite Nat.sub_diag. cbn.
  eexists _, _. split; [reflexivity|]. by simplify_map_eq.
Qed.

Lemma lookup_miss_is_not_counted_witness :
  (matched (get_course "NOPE") = rule_course_details "NOPE" ∧
   method (get_course "NOPE") ≠ "OPTIONS" ∧
   fst (load_courses one_course_world) = Ok (PList [cs203]) ∧
   Forall (other_code "NOPE") [cs203]) ∧
  error_counter (snd (wsgi_app true 1 2 (get_course "NOPE") one_course_world)) =
  error_counter one_course_world.
Proof.
  assert (method (get_course "NOPE") ≠ "OPTIONS") as Hmethod by discriminate.
  assert (Forall (other_code "NOPE") [cs203]) as Hother.
  { repeat constructor. exists (PStr "CS203"). split; [reflexivity|discriminate]. }
  split; [repeat split; [exact Hmethod|exact Hother]|].
  pose proof (lookup_miss_is_not_counted true 1 2 (get_course "NOPE") "NOPE"
    one_course_world [cs203] eq_refl Hmethod eq_refl Hother) as H.
  destruct H as (_ & H & _). exact H.
Defined.

(** A rejected submission is counted as an error once, by the view and
    under its own attributes (route and error type); the hook, seeing the
    302 redirect, adds no error sample and sets no error flag on the
    request's span, and it counts the request like any other. *)
Theorem rejected_submission_counted_once (propagate : bool) (t0 t1 : Q) (req : request)
    (w : world) :
  let w' := snd (wsgi_app propagate t0 t1 req w) in
  method req = "POST" →
  matched req = rule_add_courses →
  absent (form_get (form req) "course-code") ∨ absent (form_get (form req) "courseName")
    ∨ absent (form_get (form req) "instructor") →
  fst (wsgi_app propagate t0 t1 req w) = Ok (mkResponse 302 (Redirect "/catalog")) ∧
  error_counter w' =
    error_counter w ++
    [(1%Z, {[ "route" := PStr "/add_courses"; "error_type" := PStr "missing_fields" ]})] ∧
  route_request_counter w' =
    route_request_counter w ++
    [(1%Z, {[ "route" := PStr (path req); "method" := PStr "POST" ]})] ∧
  (∃ sp vsp, spans w' = spans w ++ [sp; vsp] ∧
     span_attributes sp !! "http.status_code" = Some (PInt 302) ∧
     span_attributes sp !! "error" = None).
Proof.
  intros w' Hpost Hrule Habsent. subst w'.
  set (w1 := snd (before_request t0 req (snd (push_request_context w)))).
  assert (dispatch_request req w1 = add_courses req w1) as Hd.
  { unfold dispatch_request. rewrite Hrule, Hpost. reflexivity. }
  rewrite (add_courses_rejected req w1 Hpost Habsent) in Hd.
  rewrite (wsgi_app_returned propagate t0 t1 req w _ _ Hd).
  subst w1. destruct w. unfold tagged, request_span_opened, metric_attributes.
  cbn -[Qmult Qminus]. rewrite Hpost.
  split; [reflexivity|]. split; [by rewrite app_nil_r|]. split; [reflexivity|].
  rewrite <- app_assoc. cbn. rewrite insert_app_r_alt by lia. rewrite Nat.sub_diag. cbn.
  eexists _, _. split; [reflexivity|]. by simplify_map_eq.
Qed.

Lemma rejected_submission_counted_once_witness :
  (method missing_all_submission = "POST" ∧
   matched missing_all_submission = rule_add_courses ∧
   absent (form_get (form missing_all_submission) "course-code")) ∧
  fst (wsgi_app true 1 2 missing_all_submission one_course_world) =
  Ok (mkResponse 302 (Redirect "/catalog")).
Proof.
  assert (absent (form_get (form missing_all_submission) "course-code")) as Hcode
    by (left; reflexivity).
  split; [repeat split; exact Hcode|].
  pose proof (rejected_submission_counted_once true 1 2 missing_all_submission
    one_course_world eq_refl eq_refl (or_introl Hcode)) as H.
  destruct H as (H & _). exact H.
Defined.

(** A request whose view raised something other than an HTTP exception,
    or returned [None], when exceptions do not propagate. *)
Lemma wsgi_app_failed (t0 t1 : Q) (req : request) (w w2 : world)
    (r : result (option response)) :
  dispatch_request req (snd (before_request t0 req (snd (push_request_context w)))) =
    (r, w2) →
  r = Ok None ∨ (∃ e, r = Raise e ∧ ∀ code, e ≠ HTTPException code) →
  wsgi_app false t0 t1 req w =
  (Ok (mkResponse 500 ErrorPage),
   set_log (log w2 ++ [request_line req 500 ((t1 - t0) * 1000)])
     (set_spans
        (<[length (spans w) :=
             mkSpan (method req +:+ " " +:+ path req)
               (tagged 500 (span_attributes (request_span_opened req))) true]> (spans w2))
        (set_error_counter (error_counter w2 ++ [(1%Z, metric_attributes req)])
           (set_route_processing_time
              (route_processing_time w2 ++ histogram_sample req ((t1 - t0) * 1000))
              (set_route_request_counter
                 (route_request_counter w2 ++ [(1%Z, metric_attributes req)]) w2))))).
Proof.
  intros Hd Hr.
  pose proof (wsgi_app_outcome false t0 t1 req w) as Hout.
  pose proof (view_exit t0 req w) as Hexit.
  cbv zeta in Hout, Hexit. rewrite Hd in Hout, Hexit. cbn [fst snd] in Hout, Hexit.
  destruct Hexit as (vs & lg & _ & _ & _ & _ & Ht & Hs & Hi & _).
  rewrite Hout.
  assert (after_request t1 req (mkResponse 500 ErrorPage) w2 = _) as ->
    by apply (after_request_run t0 t1 req (mkResponse 500 ErrorPage) w2 _ _ Ht Hs Hi eq_refl).
  destruct Hr as [->|(e & -> & He)]; [reflexivity|].
  destruct e; try reflexivity. by destruct (He code).
Qed.

(** A course file that is not JSON makes the catalog and the course page
    fail.  Served without propagating exceptions the client gets a 500
    response, the request's span is tagged with the status and flagged as
    an error, and the error counter gets the hook's sample; served as
    [app.run(debug=True)] does, the decoder's error leaves the application.
    The file is left as it is either way. *)
Theorem corrupt_store_fails_the_page (propagate : bool) (t0 t1 : Q) (req : request)
    (w : world) :
  let w' := snd (wsgi_app propagate t0 t1 req w) in
  course_file w = Some Undecodable →
  matched req = rule_course_catalog ∨ (∃ code, matched req = rule_course_details code) →
  method req ≠ "OPTIONS" →
  file_unchanged w w' ∧
  (propagate = true → fst (wsgi_app propagate t0 t1 req w) = Raise JSONDecodeError) ∧
  (propagate = false →
   fst (wsgi_app propagate t0 t1 req w) = Ok (mkResponse 500 ErrorPage) ∧
   error_counter w' = error_counter w ++ [(1%Z, metric_attributes req)] ∧
   ∃ sp vsp, spans w' = spans w ++ [sp; vsp] ∧
     span_attributes sp !! "http.status_code" = Some (PInt 500) ∧
     span_attributes sp !! "error" = Some (PBool true)).
Proof.
  intros w' Hfile Hrule Hmethod. subst w'.
  split.
  { destruct (wsgi_app_file propagate t0 t1 req w) as [H|(_ & Hadd & _)]; [exact H|].
    destruct Hrule as [Hr|[code Hr]]; congruence. }
  set (w1 := snd (before_request t0 req (snd (push_request_context w)))).
  assert (∃ w2 vsp, dispatch_request req w1 = (Raise JSONDecodeError, w2) ∧
            spans w2 = spans w1 ++ [vsp] ∧ error_counter w2 = error_counter w1)
    as (w2 & vsp & Hd & Hspans & Herr).
  { unfold dispatch_request.
    destruct (String.eqb_spec (method req) "OPTIONS") as [|_]; [done|].
    assert (course_file w1 = Some Undecodable) as Hfile1 by (subst w1; by destruct w).
    destruct w1 as [f ? ? ? ? ? ? ? ? ? ?]. cbn in Hfile1. subst f.
    destruct Hrule as [->|[code ->]].
    - unfold course_catalog. unfold_lib. run. eexists _, _. repeat split.
    - unfold course_details. unfold_lib. run. eexists _, _. repeat split. }
  split.
  - intros ->. pose proof (wsgi_app_outcome true t0 t1 req w) as Hout.
    cbv zeta in Hout. fold w1 in Hout. rewrite Hd in Hout. by rewrite Hout.
  - intros ->.
    rewrite (wsgi_app_failed t0 t1 req w w2 _ Hd)
      by (right; eexists; split; [reflexivity|discriminate]).
    destruct w2. cbn in Hspans, Herr. subst. subst w1. destruct w.
    unfold tagged, request_span_opened. cbn -[Qmult Qminus].
    split; [reflexivity|]. split; [reflexivity|].
    rewrite <- app_assoc. cbn. rewrite insert_app_r_alt by lia. rewrite Nat.sub_diag. cbn.
    eexists _, _. split; [reflexivity|]. by simplify_map_eq.
Qed.

Lemma corrupt_store_fails_the_page_witness :
  (course_file corrupt_world = Some Undecodable ∧
   matched get_catalog = rule_course_catalog ∧
   method get_catalog ≠ "OPTIONS") ∧
  file_unchanged corrupt_world (snd (wsgi_app false 1 2 get_catalog corrupt_world)).
Proof.
  assert (method get_catalog ≠ "OPTIONS") as Hmethod by discriminate.
  split; [repeat split; exact Hmethod|].
  pose proof (corrupt_store_fails_the_page false 1 2 get_catalog corrupt_world
    eq_refl (or_introl eq_refl) Hmethod) as H.
  destruct H as (H & _). exact H.
Defined.

(** [add_courses] has no branch for a method other than GET and POST (a
    HEAD request reaches it through the GET rule): it starts and ends its
    span, touches nothing else and returns [None], which Flask refuses --
    a 500 response counted as an error when exceptions do not propagate, a
    [TypeError] when they do. *)
Theorem add_courses_other_method (propagate : bool) (t0 t1 : Q) (req : request)
    (w : world) :
  method req ≠ "GET" → method req ≠ "POST" → method req ≠ "OPTIONS" →
  matched req = rule_add_courses →
  fst (add_courses req w) = Ok None ∧
  file_unchanged w (snd (add_courses req w)) ∧
  (log (snd (add_courses req w)), flashes (snd (add_courses req w)),
   error_counter (snd (add_courses req w))) = (log w, flashes w, error_counter w) ∧
  (propagate = true →
   fst (wsgi_app propagate t0 t1 req w) =
   Raise (TypeError "The view function did not return a valid response")) ∧
  (propagate = false →
   fst (wsgi_app propagate t0 t1 req w) = Ok (mkResponse 500 ErrorPage) ∧
   error_counter (snd (wsgi_app propagate t0 t1 req w)) =
     error_counter w ++ [(1%Z, metric_attributes req)]).
Proof.
  intros Hget Hpost Hoptions Hrule.
  assert (∀ w0, add_courses req w0 =
    (Ok None,
     set_spans (spans w0 ++
       [mkSpan "Handling form submissions"
          {[ "route" := PStr "/add_courses";
             "user.ip" := opt_str (remote_addr req);
             "http.method" := PStr (method req) ]} true]) w0)) as Hrun.
  { intros w0. destruct w0. unfold add_courses. unfold_lib. run.
    destruct (String.eqb_spec (method req) "GET"); [done|].
    destruct (String.eqb_spec (method req) "POST"); [done|]. reflexivity. }
  rewrite Hrun. split; [reflexivity|]. split; [by destruct w|]. split; [by destruct w|].
  set (w1 := snd (before_request t0 req (snd (push_request_context w)))).
  assert (dispatch_request req w1 = add_courses req w1) as Hd.
  { unfold dispatch_request. rewrite Hrule.
    by destruct (String.eqb_spec (method req) "OPTIONS"). }
  rewrite Hrun in Hd.
  split.
  - intros ->. pose proof (wsgi_app_outcome true t0 t1 req w) as Hout.
    cbv zeta in Hout. fold w1 in Hout. rewrite Hd in Hout. by rewrite Hout.
  - intros ->. rewrite (wsgi_app_failed t0 t1 req w _ _ Hd) by (by left).
    subst w1. destruct w. split; reflexivity.
Qed.

Lemma add_courses_other_method_witness :
  (method head_add_courses ≠ "GET" ∧ method head_add_courses ≠ "POST" ∧
   method head_add_courses ≠ "OPTIONS" ∧ matched head_add_courses = rule_add_courses) ∧
  fst (add_courses head_add_courses one_course_world) = Ok None.
Proof.
  assert (method head_add_courses ≠ "GET") as Hget by discriminate.
  assert (method head_add_courses ≠ "POST") as Hpost by discriminate.
  assert (method head_add_courses ≠ "OPTIONS") as Hoptions by discriminate.
  split; [repeat split; assumption|].
  pose proof (add_courses_other_method false 1 2 head_add_courses one_course_world
    Hget Hpost Hoptions eq_refl) as H.
  destruct H as (H & _). exact H.
Defined.
